(** * GPU graph lifecycle (stream_executor/gpu/gpu_graph.cc)

    A shallow embedding of the RAII helpers and free functions of
    [stream_executor::gpu]: the [GpuGraphSupport] counters, the owning
    wrappers [OwnedGpuGraph] and [OwnedGpuGraphExec], and the operations
    [CaptureGpuGraph], [InstantiateGpuGraph], [Update], [Launch] and the
    destructors.

    The device driver, the clock, the environment and the logging
    configuration are collaborators of the code; they are gathered in a
    record [Platform] over which every operation is parametrised. *)

From Stdlib Require Import ZArith List String Bool Lia Permutation Sorted.
Import ListNotations.

Local Open Scope string_scope.
Local Open Scope list_scope.
Local Open Scope Z_scope.

(* ===================================================================== *)
(** ** Machine integers *)
(* ===================================================================== *)

(** [size_t] and [uint64_t] on the 64-bit targets of the GPU backends:
    values in [0, 2^64), arithmetic modulo [2^64]. *)
Module U64.

Definition modulus : Z := 2 ^ 64.
Definition max : Z := modulus - 1.

Definition wrap (z : Z) : Z := z mod modulus.

Definition add (a b : Z) : Z := wrap (a + b).
Definition sub (a b : Z) : Z := wrap (a - b).

End U64.

(* ===================================================================== *)
(** ** tsl::Status and tsl::StatusOr *)
(* ===================================================================== *)

Module tsl.

(** The error codes of [absl::StatusCode] other than [kOk]. *)
Inductive ErrorCode : Type :=
| kCancelled | kUnknown | kInvalidArgument | kDeadlineExceeded | kNotFound
| kAlreadyExists | kPermissionDenied | kResourceExhausted
| kFailedPrecondition | kAborted | kOutOfRange | kUnimplemented | kInternal
| kUnavailable | kDataLoss | kUnauthenticated.

(** A status is OK (and then carries no message) or an error with a code
    and a message. *)
Inductive Status : Type :=
| OkStatus
| Error (code : ErrorCode) (msg : string).

Definition ok (st : Status) : bool :=
  match st with OkStatus => true | Error _ _ => false end.

Definition message (st : Status) : string :=
  match st with OkStatus => "" | Error _ m => m end.

Definition IsInternal (st : Status) : bool :=
  match st with Error kInternal _ => true | _ => false end.

Module errors.
(** [tsl::errors::Internal(args...)]: an [INTERNAL] status whose
    message is the concatenation of the arguments. *)
Definition Internal (args : list string) : Status :=
  Error kInternal (String.concat "" args).
End errors.

(** [tsl::StatusOr<T>]: a value, or a status that is not OK. *)
Inductive StatusOr (T : Type) : Type :=
| Value (v : T)
| Failure (st : Status).
Arguments Value {T} v.
Arguments Failure {T} st.

End tsl.
Import tsl.

(** [hay] includes [needle] as a contiguous piece of text. *)
Definition includes (hay needle : string) : Prop :=
  exists pre post, hay = (pre ++ needle ++ post)%string.

(** A boolean test for [includes], used to show that a text is absent. *)
Fixpoint contains (needle hay : string) : bool :=
  String.prefix needle hay
  || match hay with
     | EmptyString => false
     | String _ rest => contains needle rest
     end.

(* ===================================================================== *)
(** ** Handles and driver types *)
(* ===================================================================== *)

(** Device handles are raw pointers; [nullptr] is address 0. *)
Definition GpuGraphHandle : Type := Z.
Definition GpuGraphExecHandle : Type := Z.
Definition GpuStreamHandle : Type := Z.
Definition nullptr : Z := 0.

Definition is_null (h : Z) : bool := h =? nullptr.

Module GpuDriverTypes.

Inductive StreamCaptureMode : Type := kGlobal | kThreadLocal | kRelaxed.

(** Modelled from the spec: the enumeration
    [GpuDriver::GraphExecUpdateResult] is declared in gpu_driver.h, which
    is not among the sources.  Section 6 of the spec: the
    executable-update call returns "a structured result distinguishing
    success from 'requires full re-instantiation' from other failures". *)
Inductive GraphExecUpdateResult : Type :=
| kSuccess
| kRequiresReinstantiation
| kOtherFailure.

Definition is_kSuccess (r : GraphExecUpdateResult) : bool :=
  match r with kSuccess => true | _ => false end.

Record GraphExecUpdateResultInfo : Type :=
  { result : GraphExecUpdateResult }.

End GpuDriverTypes.
Import GpuDriverTypes.

(* ===================================================================== *)
(** ** The collaborators *)
(* ===================================================================== *)

(** Everything the translation unit calls but does not define.  [World] is
    the state of the device, the clock and the file system; each driver
    entry point is a function of it.

    [VLOG_IS_ON level] is the verbose-logging switch of the process (off
    at every level above 0 unless the process is started with a higher
    verbosity).  The logging macros (tsl/platform/logging.h) are not among
    the sources; [VLOG(level) << a << b] expands to the conditional
    expression [!VLOG_IS_ON(level) ? (void)0 : Voidifier() & LogMessage(...)
    << a << b], so that when the level is off the streaming expression is
    skipped and none of its operands is evaluated. *)
Record Platform : Type :=
  { World : Type;
    Stream : Type;
    GraphInstantiateFlags : Type;
    default_flags : GraphInstantiateFlags;

    VLOG_IS_ON : Z -> bool;
    NowNanos : World -> Z * World;
    getenv : string -> World -> option string;
    JoinPath : string -> string -> string;
    CreateUniqueFileName : string -> string -> World -> (bool * string) * World;

    AsGpuStreamValue : Stream -> GpuStreamHandle;

    GpuDriver_DestroyGraph : GpuGraphHandle -> World -> Status * World;
    GpuDriver_DestroyGraphExec : GpuGraphExecHandle -> World -> Status * World;
    GpuDriver_StreamBeginCapture :
      GpuStreamHandle -> StreamCaptureMode -> World -> Status * World;
    GpuDriver_StreamEndCapture :
      GpuStreamHandle -> World -> (Status * GpuGraphHandle) * World;
    GpuDriver_StreamIsCapturing :
      GpuStreamHandle -> World -> StatusOr bool * World;
    GpuDriver_GraphInstantiate :
      GpuGraphHandle -> GraphInstantiateFlags -> World
      -> (Status * GpuGraphExecHandle) * World;
    GpuDriver_GraphExecUpdate :
      GpuGraphExecHandle -> GpuGraphHandle -> World
      -> (Status * GraphExecUpdateResultInfo) * World;
    GpuDriver_GraphLaunch :
      GpuGraphExecHandle -> GpuStreamHandle -> World -> Status * World;
    GpuDriver_GraphDebugDotPrint :
      GpuGraphHandle -> string -> World -> Status * World }.

(* ===================================================================== *)
(** ** Process state and the monad of the operations *)
(* ===================================================================== *)

(** The two static atomics of [GpuGraphSupport]. *)
Record Counters : Type :=
  { allocated_gpu_graph_execs_ : Z;
    alive_gpu_graph_execs_ : Z }.

(** Static storage is zero-initialised. *)
Definition zero_counters : Counters :=
  {| allocated_gpu_graph_execs_ := 0; alive_gpu_graph_execs_ := 0 |}.

Record Process (W : Type) : Type :=
  { counters : Counters;
    world : W }.
Arguments counters {W} _.
Arguments world {W} _.

(** An operation runs to completion with a result and a new process state,
    or the process aborts on a failed [CHECK]. *)
Inductive Outcome (W A : Type) : Type :=
| Done (a : A) (p : Process W)
| Fatal (msg : string).
Arguments Done {W A} a p.
Arguments Fatal {W A} msg.

Definition M (W A : Type) : Type := Process W -> Outcome W A.

Definition ret {W A} (a : A) : M W A := fun p => Done a p.

Definition bind {W A B} (m : M W A) (k : A -> M W B) : M W B :=
  fun p => match m p with
           | Done a p' => k a p'
           | Fatal msg => Fatal msg
           end.

Declare Scope gpu_scope.
Delimit Scope gpu_scope with gpu.
Notation "x <- m ;; k" := (bind m (fun x => k))
  (at level 100, m at next level, right associativity) : gpu_scope.
Notation "' pat <- m ;; k" := (bind m (fun x => match x with pat => k end))
  (at level 100, pat pattern, m at next level, right associativity) : gpu_scope.
Local Open Scope gpu_scope.

(** A call into the world (driver, clock, file system). *)
Definition call {W A} (f : W -> A * W) : M W A :=
  fun p => let '(a, w) := f (world p) in
           Done a {| counters := counters p; world := w |}.

(** A read of the world. *)
Definition peek {W A} (f : W -> A) : M W A :=
  fun p => Done (f (world p)) p.

(** [CHECK(cond) << msg]: abort the process when the condition fails. *)
Definition CHECK {W} (cond : bool) (msg : string) : M W unit :=
  fun p => if cond then Done tt p else Fatal msg.

(** [VLOG(level) << operands]: the operands run only when the level is on.
    The text that is logged is not part of the model. *)
Definition VLOG (P : Platform) {A} (level : Z) (operands : M (World P) A)
  : M (World P) unit :=
  if VLOG_IS_ON P level then (_ <- operands ;; ret tt) else ret tt.


(* ===================================================================== *)
(** ** GpuGraphSupport: the allocation counters *)
(* ===================================================================== *)

Section Atomics.
Context {W : Type}.

(** [allocated_gpu_graph_execs_.fetch_add(d)]: returns the previous value. *)
Definition allocated_fetch_add (d : Z) : M W Z :=
  fun p =>
    let c := counters p in
    Done (allocated_gpu_graph_execs_ c)
         {| counters :=
              {| allocated_gpu_graph_execs_ :=
                   U64.add (allocated_gpu_graph_execs_ c) d;
                 alive_gpu_graph_execs_ := alive_gpu_graph_execs_ c |};
            world := world p |}.

(** [alive_gpu_graph_execs_.fetch_add(d)]: returns the previous value. *)
Definition alive_fetch_add (d : Z) : M W Z :=
  fun p =>
    let c := counters p in
    Done (alive_gpu_graph_execs_ c)
         {| counters :=
              {| allocated_gpu_graph_execs_ := allocated_gpu_graph_execs_ c;
                 alive_gpu_graph_execs_ :=
                   U64.add (alive_gpu_graph_execs_ c) d |};
            world := world p |}.

(** [alive_gpu_graph_execs_.fetch_sub(d)]: returns the previous value. *)
Definition alive_fetch_sub (d : Z) : M W Z :=
  fun p =>
    let c := counters p in
    Done (alive_gpu_graph_execs_ c)
         {| counters :=
              {| allocated_gpu_graph_execs_ := allocated_gpu_graph_execs_ c;
                 alive_gpu_graph_execs_ :=
                   U64.sub (alive_gpu_graph_execs_ c) d |};
            world := world p |}.

(** [GpuGraphSupport::NotifyGraphExecCreated]: bumps [alive], then bumps
    [allocated] and returns the value [allocated] had before. *)
Definition NotifyGraphExecCreated : M W Z :=
  _ <- alive_fetch_add 1 ;;
  allocated_fetch_add 1.

(** [GpuGraphSupport::NotifyGraphExecDestroyed]: decrements [alive] and
    returns the new value. *)
Definition NotifyGraphExecDestroyed : M W Z :=
  old <- alive_fetch_sub 1 ;;
  ret (U64.sub old 1).

Definition allocated_gpu_graph_execs : M W Z :=
  fun p => Done (allocated_gpu_graph_execs_ (counters p)) p.

Definition alive_gpu_graph_execs : M W Z :=
  fun p => Done (alive_gpu_graph_execs_ (counters p)) p.

End Atomics.

(* ===================================================================== *)
(** ** The owning wrappers *)
(* ===================================================================== *)

(** Modelled from the spec: class [OwnedGpuGraph] is declared in gpu_graph.h,
    which is not among the sources.  Section 3 and 4.1 of the spec: it
    "wraps a Graph Handle with exclusive ownership", is move-only, and is
    either non-empty or in the moved-from state that owns nothing. *)
Record OwnedGpuGraph : Type :=
  { graph_ptr : GpuGraphHandle }.

(** Modelled from the spec: class [OwnedGpuGraphExec] is declared in
    gpu_graph.h, which is not among the sources.  Section 3 of the spec: an
    exclusively owned executable handle that "carries" an [identity], a
    [launch_count] and an [update_count]; section 4.2: construction
    "records its assigned identity; initializes launch_count = 0,
    update_count = 0".  The three numbers are unsigned 64-bit, the width
    of the [size_t] identity handed to the constructor. *)
Record OwnedGpuGraphExec : Type :=
  { exec_ptr : GpuGraphExecHandle;
    id_ : Z;
    num_updates_ : Z;
    num_launches_ : Z }.

(** The constructor [OwnedGpuGraphExec(id, exec)]. *)
Definition mkOwnedGpuGraphExec (id : Z) (exec : GpuGraphExecHandle)
  : OwnedGpuGraphExec :=
  {| exec_ptr := exec; id_ := id; num_updates_ := 0; num_launches_ := 0 |}.

(** [explicit operator bool] of the [unique_ptr] base: the wrapper holds a
    handle. *)
Definition nonempty (e : OwnedGpuGraphExec) : bool := negb (is_null (exec_ptr e)).

Definition set_num_updates_ (n : Z) (e : OwnedGpuGraphExec) : OwnedGpuGraphExec :=
  {| exec_ptr := exec_ptr e; id_ := id_ e;
     num_updates_ := n; num_launches_ := num_launches_ e |}.

Definition set_num_launches_ (n : Z) (e : OwnedGpuGraphExec) : OwnedGpuGraphExec :=
  {| exec_ptr := exec_ptr e; id_ := id_ e;
     num_updates_ := num_updates_ e; num_launches_ := n |}.

(** Modelled from the spec: the move constructor is declared in gpu_graph.h.
    Section 9 of the spec: "move operations null out the source"; the
    numbers are copied.  The result is (moved-from source, new object). *)
Definition move_OwnedGpuGraphExec (e : OwnedGpuGraphExec)
  : OwnedGpuGraphExec * OwnedGpuGraphExec :=
  ({| exec_ptr := nullptr; id_ := id_ e;
      num_updates_ := num_updates_ e; num_launches_ := num_launches_ e |},
   e).

(* ===================================================================== *)
(** ** The operations of gpu_graph.cc *)
(* ===================================================================== *)

Section Operations.
Variable P : Platform.
Let W : Type := World P.

(** [GpuGraphSupport::DestroyGraph::operator()]. *)
Definition DestroyGraph (graph : GpuGraphHandle) : M W unit :=
  st <- call (GpuDriver_DestroyGraph P graph) ;;
  CHECK (ok st) ("Failed to destroy gpu graph: " ++ message st).

(** [GpuGraphSupport::DestroyGraphExec::operator()]. *)
Definition DestroyGraphExec (exec : GpuGraphExecHandle) : M W unit :=
  st <- call (GpuDriver_DestroyGraphExec P exec) ;;
  CHECK (ok st) ("Failed to destroy executable gpu graph: " ++ message st).

(** The destructor of the [unique_ptr] base of [OwnedGpuGraph]: the deleter
    runs on a handle that is not null. *)
Definition destroy_OwnedGpuGraph (g : OwnedGpuGraph) : M W unit :=
  if is_null (graph_ptr g) then ret tt else DestroyGraph (graph_ptr g).

(** [OwnedGpuGraphExec::Update], the body of the function.  The result is
    the returned status and the object after the call.  The argument
    [graph], passed by value, is destroyed when the call is over (see
    [consuming] below). *)
Definition Update (this : OwnedGpuGraphExec) (graph : OwnedGpuGraph)
  : M W (Status * OwnedGpuGraphExec) :=
  (* VLOG(3) << ... << num_launches_ << ... << num_updates_++; *)
  let this :=
    if VLOG_IS_ON P 3
    then set_num_updates_ (U64.add (num_updates_ this) 1) this
    else this in
  let this := set_num_launches_ 0 this in
  start_nanos <- call (NowNanos P) ;;
  '(st, result) <- call (GpuDriver_GraphExecUpdate P (exec_ptr this) (graph_ptr graph)) ;;
  end_nanos <- call (NowNanos P) ;;
  (* VLOG(5) << ... id_ ... : no operand has an effect *)
  if negb (ok st) || negb (is_kSuccess (GpuDriverTypes.result result))
  then ret (errors.Internal ["Failed to update gpu graph: "; message st], this)
  else ret (OkStatus, this).

(** [OwnedGpuGraphExec::Launch]. *)
Definition Launch (this : OwnedGpuGraphExec) (stream : Stream P)
  : M W (Status * OwnedGpuGraphExec) :=
  (* VLOG(3) << ... << ++num_launches_; *)
  let this :=
    if VLOG_IS_ON P 3
    then set_num_launches_ (U64.add (num_launches_ this) 1) this
    else this in
  st <- call (GpuDriver_GraphLaunch P (exec_ptr this) (AsGpuStreamValue P stream)) ;;
  ret (st, this).

(** [OwnedGpuGraphExec::~OwnedGpuGraphExec]: the body of the destructor,
    then the destructor of the [unique_ptr] base. *)
Definition destroy_OwnedGpuGraphExec (this : OwnedGpuGraphExec) : M W unit :=
  _ <- (if nonempty this
        then VLOG P 5 NotifyGraphExecDestroyed
        else ret tt) ;;
  if nonempty this then DestroyGraphExec (exec_ptr this) else ret tt.

(** [CaptureGpuGraph].  The capture function is arbitrary code of the
    caller. *)
Definition CaptureGpuGraph (stream : Stream P) (capture : M W Status)
  : M W (StatusOr OwnedGpuGraph) :=
  start_nanos <- call (NowNanos P) ;;
  let gpu_stream := AsGpuStreamValue P stream in
  st_begin <- call (GpuDriver_StreamBeginCapture P gpu_stream kThreadLocal) ;;
  if negb (ok st_begin) then ret (Failure st_begin) else
  captured <- capture ;;
  '(st_end, graph) <- call (GpuDriver_StreamEndCapture P gpu_stream) ;;
  if negb (ok st_end) then ret (Failure st_end) else
  if negb (ok captured)
  then ret (Failure (errors.Internal
                       ["failed to capture gpu graph: "; message captured]))
  else
  end_nanos <- call (NowNanos P) ;;
  path <- peek (getenv P "XLA_GPU_GRAPH_DEBUG_DIRECTORY") ;;
  _ <- match path with
       | Some path =>
           let file := JoinPath P path "/gpu-graph-" in
           '(unique, file) <- call (CreateUniqueFileName P file ".dot") ;;
           if unique
           then printed <- call (GpuDriver_GraphDebugDotPrint P graph file) ;;
                ret tt  (* printed.IgnoreError() *)
           else ret tt  (* LOG(WARNING) *)
       | None => ret tt
       end ;;
  ret (Value {| graph_ptr := graph |}).

(** [InstantiateGpuGraph]. *)
Definition InstantiateGpuGraph (graph : OwnedGpuGraph)
  : M W (StatusOr OwnedGpuGraphExec) :=
  start_nanos <- call (NowNanos P) ;;
  '(st, exec) <- call (GpuDriver_GraphInstantiate P (graph_ptr graph) (default_flags P)) ;;
  if negb (ok st) then ret (Failure st) else
  end_nanos <- call (NowNanos P) ;;
  id <- NotifyGraphExecCreated ;;
  _ <- VLOG P 5 alive_gpu_graph_execs ;;
  ret (Value (mkOwnedGpuGraphExec id exec)).

(** [IsStreamCapturing]. *)
Definition IsStreamCapturing (stream : Stream P) : M W (StatusOr bool) :=
  call (GpuDriver_StreamIsCapturing P (AsGpuStreamValue P stream)).

End Operations.

(** Modelled from the spec: the driver (gpu_driver.h and its
    implementation) is not among the sources.  Sections 4.3 and 8 of the
    spec: ending capture takes the stream out of capture mode, so that the
    "stream capture-state query returns 'not capturing' afterward". *)
Definition ends_capture (P : Platform) : Prop :=
  forall (s : GpuStreamHandle) (w w' : World P) (st : Status)
         (g : GpuGraphHandle),
    GpuDriver_StreamEndCapture P s w = ((st, g), w') ->
    ok st = true ->
    fst (GpuDriver_StreamIsCapturing P s w') = Value false.

(* ===================================================================== *)
(** ** Client programs: objects in scope and sequences of operations *)
(* ===================================================================== *)

(** A client of the library holds a collection of [OwnedGpuGraphExec]
    objects and runs operations on them one after the other.  [assigned]
    records, oldest first, the identities handed out by successful
    instantiations (a history kept for the statements below; the code does
    not store it). *)
Record Sys (W : Type) : Type :=
  { proc : Process W;
    objs : list OwnedGpuGraphExec;
    assigned : list Z }.
Arguments proc {W} _.
Arguments objs {W} _.
Arguments assigned {W} _.

(** The process at start-up: zeroed counters, no object. *)
Definition boot {W} (w : W) : Sys W :=
  {| proc := {| counters := zero_counters; world := w |};
     objs := [];
     assigned := [] |}.

Fixpoint remove_nth {A} (i : nat) (l : list A) : list A :=
  match l, i with
  | [], _ => []
  | _ :: t, O => t
  | x :: t, S j => x :: remove_nth j t
  end.

Fixpoint replace_nth {A} (i : nat) (y : A) (l : list A) : list A :=
  match l, i with
  | [], _ => []
  | _ :: t, O => y :: t
  | x :: t, S j => x :: replace_nth j y t
  end.

Section Clients.
Variable P : Platform.
Let W : Type := World P.

Inductive Op : Type :=
| OpInstantiate (graph : OwnedGpuGraph)
    (* auto r = InstantiateGpuGraph(std::move(graph)); a success adds *r *)
| OpDestroy (i : nat)
    (* object i goes out of scope *)
| OpMove (i : nat)
    (* OwnedGpuGraphExec fresh(std::move(object i)); *)
| OpLaunch (i : nat) (stream : Stream P)
| OpUpdate (i : nat) (graph : OwnedGpuGraph).

(** A call that takes an [OwnedGpuGraph] by value: the argument is
    destroyed when the call is over, whatever the call returned. *)
Definition consuming {A} (m : M W A) (graph : OwnedGpuGraph) : M W A :=
  r <- m ;;
  _ <- destroy_OwnedGpuGraph P graph ;;
  ret r.

Definition lift (s : Sys W) {A} (m : M W A) (k : A -> Process W -> Sys W)
  : option (Sys W) :=
  match m (proc s) with
  | Done a p => Some (k a p)
  | Fatal _ => None
  end.

(** One operation.  [None]: the process aborted, or the operation names an
    object that is not in scope. *)
Definition step (op : Op) (s : Sys W) : option (Sys W) :=
  match op with
  | OpInstantiate graph =>
      lift s (consuming (InstantiateGpuGraph P graph) graph)
        (fun r p =>
           match r with
           | Value e => {| proc := p; objs := objs s ++ [e];
                           assigned := assigned s ++ [id_ e] |}
           | Failure _ => {| proc := p; objs := objs s;
                             assigned := assigned s |}
           end)
  | OpDestroy i =>
      match nth_error (objs s) i with
      | Some e =>
          lift s (destroy_OwnedGpuGraphExec P e)
            (fun _ p => {| proc := p; objs := remove_nth i (objs s);
                           assigned := assigned s |})
      | None => None
      end
  | OpMove i =>
      match nth_error (objs s) i with
      | Some e =>
          let '(src, dst) := move_OwnedGpuGraphExec e in
          Some {| proc := proc s;
                  objs := replace_nth i src (objs s) ++ [dst];
                  assigned := assigned s |}
      | None => None
      end
  | OpLaunch i stream =>
      match nth_error (objs s) i with
      | Some e =>
          lift s (Launch P e stream)
            (fun r p => {| proc := p; objs := replace_nth i (snd r) (objs s);
                           assigned := assigned s |})
      | None => None
      end
  | OpUpdate i graph =>
      match nth_error (objs s) i with
      | Some e =>
          lift s (consuming (Update P e graph) graph)
            (fun r p => {| proc := p; objs := replace_nth i (snd r) (objs s);
                           assigned := assigned s |})
      | None => None
      end
  end.

Fixpoint run (ops : list Op) (s : Sys W) : option (Sys W) :=
  match ops with
  | [] => Some s
  | op :: rest =>
      match step op s with
      | Some s' => run rest s'
      | None => None
      end
  end.

(** The objects in scope that hold a handle. *)
Definition live (s : Sys W) : list OwnedGpuGraphExec :=
  filter nonempty (objs s).

Definition alive (s : Sys W) : Z := alive_gpu_graph_execs_ (counters (proc s)).
Definition allocated (s : Sys W) : Z :=
  allocated_gpu_graph_execs_ (counters (proc s)).

(** [Launch] repeated on one object, once per stream of the list. *)
Fixpoint launch_all (this : OwnedGpuGraphExec) (streams : list (Stream P))
  : M W (list Status * OwnedGpuGraphExec) :=
  match streams with
  | [] => ret ([], this)
  | stream :: rest =>
      '(st, this) <- Launch P this stream ;;
      '(sts, this) <- launch_all this rest ;;
      ret (st :: sts, this)
  end.

End Clients.
Arguments OpInstantiate {P} graph.
Arguments OpDestroy {P} i.
Arguments OpMove {P} i.
Arguments OpLaunch {P} i stream.
Arguments OpUpdate {P} i graph.

(* ===================================================================== *)
(** ** A scripted platform *)
(* ===================================================================== *)

(** A driver double in the manner of a unit-test fixture: every entry point
    answers with the status its script gives, and the device state keeps
    what the spec (section 6) says the driver tracks: which streams are in
    capture mode and which handles exist. *)
Module Scripted.

Record Script : Type :=
  { verbosity : Z;          (* VLOG(level) is on when level <= verbosity *)
    begin_capture : Status;
    end_capture : Status;
    instantiate : Status;
    exec_update : Status;
    exec_update_result : GraphExecUpdateResult;
    launch : Status;
    destroy : Status;
    debug_directory : option string }.

Record Device : Type :=
  { capturing : list GpuStreamHandle;
    next_handle : Z;
    clock : Z }.

Definition power_on : Device :=
  {| capturing := []; next_handle := 1; clock := 0 |}.

Definition tick (d : Device) : Z * Device :=
  (clock d, {| capturing := capturing d; next_handle := next_handle d;
               clock := clock d + 1 |}).

Definition fresh_handle (st : Status) (d : Device) : (Status * Z) * Device :=
  if ok st
  then ((st, next_handle d),
        {| capturing := capturing d; next_handle := next_handle d + 1;
           clock := clock d |})
  else ((st, nullptr), d).

Definition set_capturing (l : list GpuStreamHandle) (d : Device) : Device :=
  {| capturing := l; next_handle := next_handle d; clock := clock d |}.

Definition stream_begin (st : Status) (s : GpuStreamHandle) (d : Device)
  : Status * Device :=
  if ok st then (st, set_capturing (s :: capturing d) d) else (st, d).

Definition stream_end (st : Status) (s : GpuStreamHandle) (d : Device)
  : (Status * GpuGraphHandle) * Device :=
  if ok st
  then fresh_handle st
         (set_capturing (filter (fun s' => negb (s' =? s)) (capturing d)) d)
  else ((st, nullptr), d).

Definition stream_is_capturing (s : GpuStreamHandle) (d : Device)
  : StatusOr bool * Device :=
  (Value (existsb (Z.eqb s) (capturing d)), d).

Definition platform (sc : Script) : Platform :=
  {| World := Device;
     Stream := Z;
     GraphInstantiateFlags := unit;
     default_flags := tt;
     VLOG_IS_ON := fun level => level <=? verbosity sc;
     NowNanos := tick;
     getenv := fun _ _ => debug_directory sc;
     JoinPath := fun a b => (a ++ b)%string;
     CreateUniqueFileName := fun file ext d => ((true, (file ++ "0" ++ ext)%string), d);
     AsGpuStreamValue := fun s => s;
     GpuDriver_DestroyGraph := fun _ d => (destroy sc, d);
     GpuDriver_DestroyGraphExec := fun _ d => (destroy sc, d);
     GpuDriver_StreamBeginCapture := fun s _ d => stream_begin (begin_capture sc) s d;
     GpuDriver_StreamEndCapture := fun s d => stream_end (end_capture sc) s d;
     GpuDriver_StreamIsCapturing := stream_is_capturing;
     GpuDriver_GraphInstantiate := fun _ _ d => fresh_handle (instantiate sc) d;
     GpuDriver_GraphExecUpdate :=
       fun _ _ d => ((exec_update sc, {| result := exec_update_result sc |}), d);
     GpuDriver_GraphLaunch := fun _ _ d => (launch sc, d);
     GpuDriver_GraphDebugDotPrint := fun _ _ d => (OkStatus, d) |}.

(** Every driver call succeeds; logging at the given verbosity. *)
Definition healthy (v : Z) : Script :=
  {| verbosity := v;
     begin_capture := OkStatus; end_capture := OkStatus;
     instantiate := OkStatus;
     exec_update := OkStatus; exec_update_result := kSuccess;
     launch := OkStatus; destroy := OkStatus;
     debug_directory := None |}.

Definition with_end_capture (st : Status) (sc : Script) : Script :=
  {| verbosity := verbosity sc;
     begin_capture := begin_capture sc; end_capture := st;
     instantiate := instantiate sc;
     exec_update := exec_update sc; exec_update_result := exec_update_result sc;
     launch := launch sc; destroy := destroy sc;
     debug_directory := debug_directory sc |}.

Definition with_instantiate (st : Status) (sc : Script) : Script :=
  {| verbosity := verbosity sc;
     begin_capture := begin_capture sc; end_capture := end_capture sc;
     instantiate := st;
     exec_update := exec_update sc; exec_update_result := exec_update_result sc;
     launch := launch sc; destroy := destroy sc;
     debug_directory := debug_directory sc |}.

Definition with_exec_update (st : Status) (r : GraphExecUpdateResult)
  (sc : Script) : Script :=
  {| verbosity := verbosity sc;
     begin_capture := begin_capture sc; end_capture := end_capture sc;
     instantiate := instantiate sc;
     exec_update := st; exec_update_result := r;
     launch := launch sc; destroy := destroy sc;
     debug_directory := debug_directory sc |}.

Definition start : Process Device :=
  {| counters := zero_counters; world := power_on |}.

(** A state of a client of the scripted platform, written out. *)
Definition sys (allocated alive : Z) (next clock : Z)
  (objects : list OwnedGpuGraphExec) (ids : list Z) : Sys Device :=
  {| proc := {| counters := {| allocated_gpu_graph_execs_ := allocated;
                               alive_gpu_graph_execs_ := alive |};
                world := {| capturing := []; next_handle := next;
                            clock := clock |} |};
     objs := objects;
     assigned := ids |}.

End Scripted.

(* ===================================================================== *)
(** ** Vocabulary of the statements *)
(* ===================================================================== *)

(** The counters after one [NotifyGraphExecCreated]. *)
Definition bump (c : Counters) : Counters :=
  {| allocated_gpu_graph_execs_ := U64.add (allocated_gpu_graph_execs_ c) 1;
     alive_gpu_graph_execs_ := U64.add (alive_gpu_graph_execs_ c) 1 |}.

(** The counters after [NotifyGraphExecDestroyed] ran [times] times. *)
Definition notified_destroyed (times : bool) (c : Counters) : Counters :=
  if times
  then {| allocated_gpu_graph_execs_ := allocated_gpu_graph_execs_ c;
          alive_gpu_graph_execs_ := U64.sub (alive_gpu_graph_execs_ c) 1 |}
  else c.

(** The identities held by the objects that own a handle. *)
Definition live_ids (l : list OwnedGpuGraphExec) : list Z :=
  map id_ (filter nonempty l).

(** Modelled from the spec: the driver is not among the sources.  Section
    4.4 of the spec: a successful instantiate "produce[s] an executable
    form" of the graph, that is, a handle that is not null. *)
Definition instantiate_gives_handle (P : Platform) : Prop :=
  forall g f (w w' : World P) st exec,
    GpuDriver_GraphInstantiate P g f w = ((st, exec), w') ->
    ok st = true -> is_null exec = false.

(** The effect of one operation of a client on the counters, the objects
    and the history of identities. *)
Inductive step_effect (P : Platform) (s s' : Sys (World P)) : Prop :=
| InstantiateOk (exec : GpuGraphExecHandle) (w' : World P)
    (nonnull : instantiate_gives_handle P -> is_null exec = false)
    (after : s' = {| proc := {| counters := bump (counters (proc s));
                                world := w' |};
                     objs := objs s
                             ++ [mkOwnedGpuGraphExec
                                   (allocated_gpu_graph_execs_ (counters (proc s)))
                                   exec];
                     assigned := assigned s
                                 ++ [allocated_gpu_graph_execs_
                                       (counters (proc s))] |})
| InstantiateFailed (w' : World P)
    (after : s' = {| proc := {| counters := counters (proc s); world := w' |};
                     objs := objs s;
                     assigned := assigned s |})
| Destroyed (i : nat) (e : OwnedGpuGraphExec) (w' : World P)
    (found : nth_error (objs s) i = Some e)
    (after : s' = {| proc := {| counters :=
                                  notified_destroyed
                                    (nonempty e && VLOG_IS_ON P 5)
                                    (counters (proc s));
                                world := w' |};
                     objs := remove_nth i (objs s);
                     assigned := assigned s |})
| Moved (i : nat) (e : OwnedGpuGraphExec)
    (found : nth_error (objs s) i = Some e)
    (after : s' = {| proc := proc s;
                     objs := replace_nth i (fst (move_OwnedGpuGraphExec e))
                               (objs s)
                             ++ [snd (move_OwnedGpuGraphExec e)];
                     assigned := assigned s |})
| Touched (i : nat) (e e' : OwnedGpuGraphExec) (w' : World P)
    (found : nth_error (objs s) i = Some e)
    (same_id : id_ e' = id_ e)
    (same_handle : exec_ptr e' = exec_ptr e)
    (after : s' = {| proc := {| counters := counters (proc s); world := w' |};
                     objs := replace_nth i e' (objs s);
                     assigned := assigned s |}).

(** What holds of every state a client can reach from [boot]. *)
Definition identities_invariant {W} (s : Sys W) : Prop :=
  allocated_gpu_graph_execs_ (counters (proc s))
  = U64.wrap (Z.of_nat (List.length (assigned s))) /\
  Forall (fun o => In (id_ o) (assigned s)) (objs s) /\
  (Z.of_nat (List.length (assigned s)) <= U64.modulus ->
   assigned s = map Z.of_nat (seq 0 (List.length (assigned s))) /\
   NoDup (live_ids (objs s))).

(** The [alive] counter agrees, modulo [2^64], with the number of objects
    that hold a handle. *)
Definition alive_invariant {W} (s : Sys W) : Prop :=
  alive_gpu_graph_execs_ (counters (proc s))
  = U64.wrap (Z.of_nat (List.length (live_ids (objs s)))).

(* ===================================================================== *)
(** ** Graph construction by node insertion *)
(* ===================================================================== *)

Definition GpuGraphNodeHandle : Type := Z.
Definition GpuFunctionHandle : Type := Z.
Definition GpuDevicePtr : Type := Z.

(** [unsigned int]: values in [0, 2^32); a wider unsigned value passed
    where one is expected is reduced modulo [2^32]. *)
Module U32.
Definition modulus : Z := 2 ^ 32.
Definition narrow (z : Z) : Z := z mod modulus.
End U32.

(** Modelled from the spec: [ThreadDim], [BlockDim], [KernelBase],
    [KernelArgsArrayBase] and [DeviceMemoryBase] are declared in headers
    that are not among the sources.  Section 4.3 of the spec: a kernel node
    is inserted from "thread-dims, block-dims, kernel, arguments", the
    kernel giving "its device-level function handle" and the arguments
    their "addresses" and a "shared-memory byte count" (section 6); a copy
    node is "sized to the destination buffer's byte length".  Only the
    members that gpu_graph.cc reads are kept; the dimensions and the
    shared-memory byte count are [uint64_t] in those headers. *)
Record Dim3 : Type := { x : Z; y : Z; z : Z }.
Definition ThreadDim : Type := Dim3.
Definition BlockDim : Type := Dim3.

Record KernelBase : Type :=
  { name : string;
    AsGpuFunctionHandle : GpuFunctionHandle }.

Record KernelArgsArrayBase : Type :=
  { argument_addresses : list Z;
    number_of_shared_bytes : Z }.

Record DeviceMemoryBase : Type :=
  { opaque : Z;
    size : Z }.

(** The driver entry points that build a graph node by node.  They are
    kept apart from [Platform]; like it, they act on its [World].  In
    gpu_driver.h the grid dimensions, the block dimensions and the
    shared-memory byte count of [GraphAddKernelNode] are [unsigned int]
    parameters. *)
Record GraphBuilder (P : Platform) : Type :=
  { GpuContext : Type;
    GpuDriver_CreateGraph : World P -> (Status * GpuGraphHandle) * World P;
    GpuDriver_GraphAddKernelNode :
      GpuGraphHandle -> list GpuGraphNodeHandle -> string -> GpuFunctionHandle
      -> Z -> Z -> Z            (* grid dimensions *)
      -> Z -> Z -> Z            (* block dimensions *)
      -> Z                      (* shared memory bytes *)
      -> list Z                 (* kernel parameters *)
      -> World P -> (Status * GpuGraphNodeHandle) * World P;
    GpuDriver_GraphAddMemcpyD2DNode :
      GpuContext -> GpuGraphHandle -> list GpuGraphNodeHandle
      -> GpuDevicePtr -> GpuDevicePtr -> Z
      -> World P -> (Status * GpuGraphNodeHandle) * World P }.
Arguments GpuContext {P} _.
Arguments GpuDriver_CreateGraph {P} _.
Arguments GpuDriver_GraphAddKernelNode {P} _.
Arguments GpuDriver_GraphAddMemcpyD2DNode {P} _.

Section Construction.
Variable P : Platform.
Variable B : GraphBuilder P.
Let W : Type := World P.

(** [CreateGpuGraph]. *)
Definition CreateGpuGraph : M W (StatusOr OwnedGpuGraph) :=
  '(st, graph) <- call (GpuDriver_CreateGraph B) ;;
  if negb (ok st) then ret (Failure st) else
  ret (Value {| graph_ptr := graph |}).

(** [AddKernelNode].  The 64-bit dimensions and byte count are narrowed to
    the driver's [unsigned int] parameters. *)
Definition AddKernelNode (graph : GpuGraphHandle)
  (deps : list GpuGraphNodeHandle) (threads : ThreadDim) (blocks : BlockDim)
  (kernel : KernelBase) (args : KernelArgsArrayBase)
  : M W (StatusOr GpuGraphNodeHandle) :=
  let gpu_func := AsGpuFunctionHandle kernel in
  let kernel_params := argument_addresses args in
  '(st, node) <- call (GpuDriver_GraphAddKernelNode B graph deps (name kernel)
                         gpu_func
                         (U32.narrow (x blocks)) (U32.narrow (y blocks))
                         (U32.narrow (z blocks))
                         (U32.narrow (x threads)) (U32.narrow (y threads))
                         (U32.narrow (z threads))
                         (U32.narrow (number_of_shared_bytes args))
                         kernel_params) ;;
  if negb (ok st) then ret (Failure st) else
  ret (Value node).

(** [AsDevicePtr]. *)
Definition AsDevicePtr (mem : DeviceMemoryBase) : GpuDevicePtr := opaque mem.

(** [AddMemcpyD2DNode] (the CUDA build). *)
Definition AddMemcpyD2DNode (context : GpuContext B) (graph : GpuGraphHandle)
  (deps : list GpuGraphNodeHandle) (dst src : DeviceMemoryBase)
  : M W (StatusOr GpuGraphNodeHandle) :=
  '(st, node) <- call (GpuDriver_GraphAddMemcpyD2DNode B context graph deps
                         (AsDevicePtr dst) (AsDevicePtr src) (size dst)) ;;
  if negb (ok st) then ret (Failure st) else
  ret (Value node).

(** The operations of the library other than instantiation, as a client
    may call them one after the other.  The capture function of
    [CallCaptureGpuGraph] issues device work: it acts on the world. *)
Inductive Call : Type :=
| CallCreateGpuGraph
| CallAddKernelNode (graph : GpuGraphHandle) (deps : list GpuGraphNodeHandle)
    (threads : ThreadDim) (blocks : BlockDim) (kernel : KernelBase)
    (args : KernelArgsArrayBase)
| CallAddMemcpyD2DNode (context : GpuContext B) (graph : GpuGraphHandle)
    (deps : list GpuGraphNodeHandle) (dst src : DeviceMemoryBase)
| CallCaptureGpuGraph (stream : Stream P) (body : W -> Status * W)
| CallLaunch (this : OwnedGpuGraphExec) (stream : Stream P)
| CallUpdate (this : OwnedGpuGraphExec) (graph : OwnedGpuGraph)
| CallIsStreamCapturing (stream : Stream P).

(** What a call hands back to the client, who keeps it: nothing that is
    returned is destroyed here. *)
Inductive Answer : Type :=
| AnswerGraph (r : StatusOr OwnedGpuGraph)
| AnswerNode (r : StatusOr GpuGraphNodeHandle)
| AnswerExec (st : Status) (this : OwnedGpuGraphExec)
| AnswerCapturing (r : StatusOr bool).

(** One call.  [Update] takes its graph by value: the graph is destroyed
    when the call is over ([consuming]). *)
Definition perform (c : Call) : M W Answer :=
  match c with
  | CallCreateGpuGraph =>
      r <- CreateGpuGraph ;; ret (AnswerGraph r)
  | CallAddKernelNode graph deps threads blocks kernel args =>
      r <- AddKernelNode graph deps threads blocks kernel args ;;
      ret (AnswerNode r)
  | CallAddMemcpyD2DNode context graph deps dst src =>
      r <- AddMemcpyD2DNode context graph deps dst src ;; ret (AnswerNode r)
  | CallCaptureGpuGraph stream body =>
      r <- CaptureGpuGraph P stream (call body) ;; ret (AnswerGraph r)
  | CallLaunch this stream =>
      r <- Launch P this stream ;; ret (AnswerExec (fst r) (snd r))
  | CallUpdate this graph =>
      r <- consuming P (Update P this graph) graph ;;
      ret (AnswerExec (fst r) (snd r))
  | CallIsStreamCapturing stream =>
      r <- IsStreamCapturing P stream ;; ret (AnswerCapturing r)
  end.

Fixpoint perform_all (cs : list Call) : M W (list Answer) :=
  match cs with
  | [] => ret []
  | c :: rest =>
      a <- perform c ;;
      answers <- perform_all rest ;;
      ret (a :: answers)
  end.

(** The calls that cannot abort the process: all but an [Update] whose
    graph the driver may fail to destroy. *)
Definition safe (c : Call) : Prop :=
  match c with
  | CallUpdate _ graph =>
      is_null (graph_ptr graph) = true \/
      (forall w, ok (fst (GpuDriver_DestroyGraph P (graph_ptr graph) w)) = true)
  | _ => True
  end.

(** The calls that hand a graph over to be destroyed. *)
Definition gives_up_a_graph (c : Call) : bool :=
  match c with
  | CallUpdate _ graph => negb (is_null (graph_ptr graph))
  | _ => false
  end.

End Construction.
Arguments CallCreateGpuGraph {P B}.
Arguments CallAddKernelNode {P B} graph deps threads blocks kernel args.
Arguments CallAddMemcpyD2DNode {P B} context graph deps dst src.
Arguments CallCaptureGpuGraph {P B} stream body.
Arguments CallLaunch {P B} this stream.
Arguments CallUpdate {P B} this graph.
Arguments CallIsStreamCapturing {P B} stream.

(** An operation that always returns and leaves the counters alone. *)
Definition quiet {W A} (m : M W A) : Prop :=
  forall p, exists a p', m p = Done a p' /\ counters p' = counters p.

(** An operation that leaves the counters alone when it returns, and that
    aborts only on the [CHECK] of [DestroyGraph]. *)
Definition calm {W A} (m : M W A) : Prop :=
  forall p,
    match m p with
    | Done _ p' => counters p' = counters p
    | Fatal msg =>
        exists st, ok st = false /\
                   msg = ("Failed to destroy gpu graph: " ++ message st)%string
    end.

(** [Update] followed by one [Launch] per stream of the list. *)
Definition update_then_launch (P : Platform) (this : OwnedGpuGraphExec)
  (graph : OwnedGpuGraph) (streams : list (Stream P))
  : M (World P) (Status * list Status * OwnedGpuGraphExec) :=
  '(st, this) <- Update P this graph ;;
  '(sts, this) <- launch_all P this streams ;;
  ret (st, sts, this).

(** A scripted platform whose instantiate never hands out a null handle,
    and a scripted builder for it. *)
Module Sturdy.

Definition instantiate (st : Status) (d : Scripted.Device)
  : (Status * GpuGraphExecHandle) * Scripted.Device :=
  if ok st
  then ((st, Z.abs (Scripted.next_handle d) + 1),
        {| Scripted.capturing := Scripted.capturing d;
           Scripted.next_handle := Z.abs (Scripted.next_handle d) + 1;
           Scripted.clock := Scripted.clock d |})
  else ((st, nullptr), d).

Definition platform (sc : Scripted.Script) : Platform :=
  let Q := Scripted.platform sc in
  {| World := Scripted.Device;
     Stream := Z;
     GraphInstantiateFlags := unit;
     default_flags := tt;
     VLOG_IS_ON := VLOG_IS_ON Q;
     NowNanos := NowNanos Q;
     getenv := getenv Q;
     JoinPath := JoinPath Q;
     CreateUniqueFileName := CreateUniqueFileName Q;
     AsGpuStreamValue := fun s => s;
     GpuDriver_DestroyGraph := GpuDriver_DestroyGraph Q;
     GpuDriver_DestroyGraphExec := GpuDriver_DestroyGraphExec Q;
     GpuDriver_StreamBeginCapture := GpuDriver_StreamBeginCapture Q;
     GpuDriver_StreamEndCapture := GpuDriver_StreamEndCapture Q;
     GpuDriver_StreamIsCapturing := GpuDriver_StreamIsCapturing Q;
     GpuDriver_GraphInstantiate :=
       fun _ _ d => instantiate (Scripted.instantiate sc) d;
     GpuDriver_GraphExecUpdate := GpuDriver_GraphExecUpdate Q;
     GpuDriver_GraphLaunch := GpuDriver_GraphLaunch Q;
     GpuDriver_GraphDebugDotPrint := GpuDriver_GraphDebugDotPrint Q |}.

Definition builder (sc : Scripted.Script) (node : Status)
  : GraphBuilder (Scripted.platform sc) :=
  Build_GraphBuilder (Scripted.platform sc) unit
    (fun d => Scripted.fresh_handle (Scripted.instantiate sc) d)
    (fun _ _ _ _ _ _ _ _ _ _ _ _ d => Scripted.fresh_handle node d)
    (fun _ _ _ _ _ _ d => Scripted.fresh_handle node d).

End Sturdy.

(* ===================================================================== *)
(** * Properties *)
(* ===================================================================== *)

(** ** Arithmetic and text *)

Lemma wrap_small (z : Z) : 0 <= z < U64.modulus -> U64.wrap z = z.
Proof. intros H. unfold U64.wrap. apply Z.mod_small. exact H. Qed.

Lemma add_one_exact (n : Z) : 0 <= n < U64.max -> U64.add n 1 = n + 1.
Proof.
  intros H. unfold U64.add. apply wrap_small.
  unfold U64.max in H. lia.
Qed.

Lemma append_empty_r (s : string) : (s ++ "")%string = s.
Proof. induction s as [|c s IH]; simpl; [reflexivity | now rewrite IH]. Qed.

Lemma includes_suffix (pre s : string) : includes (pre ++ s) s.
Proof. exists pre, "". now rewrite append_empty_r. Qed.

Lemma prefix_append (a b : string) : String.prefix a (a ++ b) = true.
Proof.
  induction a as [|c a IH]; simpl.
  - destruct b; reflexivity.
  - destruct (Ascii.ascii_dec c c) as [_|ne]; [exact IH | now elim ne].
Qed.

Lemma contains_prefix (needle hay : string) :
  String.prefix needle hay = true -> contains needle hay = true.
Proof. intros H. destruct hay; cbn [contains]; rewrite H; reflexivity. Qed.

Lemma includes_contains (hay needle : string) :
  includes hay needle -> contains needle hay = true.
Proof.
  intros (pre & post & ->).
  induction pre as [|c pre IH]; cbn [append contains].
  - apply contains_prefix, prefix_append.
  - rewrite IH. apply orb_true_r.
Qed.

(** ** The counters of one object: [Update] and [Launch] *)

Section ObjectCounters.
Variable P : Platform.

(** What [Update] does, call by call. *)
Lemma Update_unfold (this : OwnedGpuGraphExec) (graph : OwnedGpuGraph)
  (p : Process (World P)) :
  let this1 :=
    if VLOG_IS_ON P 3
    then set_num_updates_ (U64.add (num_updates_ this) 1) this else this in
  let this2 := set_num_launches_ 0 this1 in
  let w1 := snd (NowNanos P (world p)) in
  let r := GpuDriver_GraphExecUpdate P (exec_ptr this) (graph_ptr graph) w1 in
  let st := fst (fst r) in
  let w3 := snd (NowNanos P (snd r)) in
  Update P this graph p =
  Done (if negb (ok st) || negb (is_kSuccess (result (snd (fst r))))
        then errors.Internal ["Failed to update gpu graph: "; message st]
        else OkStatus,
        this2)
       {| counters := counters p; world := w3 |}.
Proof.
  cbv zeta. unfold Update, bind, call, ret.
  destruct (VLOG_IS_ON P 3); simpl;
    destruct (NowNanos P (world p)) as [t0 w1]; simpl;
    destruct (GpuDriver_GraphExecUpdate P (exec_ptr this) (graph_ptr graph) w1)
      as [[st info] w2]; simpl;
    destruct (NowNanos P w2) as [t1 w3]; simpl;
    destruct (negb (ok st) || negb (is_kSuccess (result info))); reflexivity.
Qed.

(** What [Launch] does. *)
Lemma Launch_unfold (this : OwnedGpuGraphExec) (stream : Stream P)
  (p : Process (World P)) :
  let this1 :=
    if VLOG_IS_ON P 3
    then set_num_launches_ (U64.add (num_launches_ this) 1) this else this in
  let r := GpuDriver_GraphLaunch P (exec_ptr this) (AsGpuStreamValue P stream)
             (world p) in
  Launch P this stream p =
  Done (fst r, this1) {| counters := counters p; world := snd r |}.
Proof.
  cbv zeta. unfold Launch, bind, call, ret.
  destruct (VLOG_IS_ON P 3); simpl;
    destruct (GpuDriver_GraphLaunch P (exec_ptr this) (AsGpuStreamValue P stream)
                (world p)) as [st w']; reflexivity.
Qed.

Lemma Launch_quiet (this : OwnedGpuGraphExec) (stream : Stream P)
  (p : Process (World P)) :
  VLOG_IS_ON P 3 = false ->
  exists st p', Launch P this stream p = Done (st, this) p'.
Proof.
  intros Hv. rewrite Launch_unfold. cbv zeta. rewrite Hv. eauto.
Qed.

Lemma Launch_verbose (this : OwnedGpuGraphExec) (stream : Stream P)
  (p : Process (World P)) :
  VLOG_IS_ON P 3 = true ->
  exists st p',
    Launch P this stream p =
    Done (st, set_num_launches_ (U64.add (num_launches_ this) 1) this) p'.
Proof.
  intros Hv. rewrite Launch_unfold. cbv zeta. rewrite Hv. eauto.
Qed.

(** [k] launches in a row, with logging at level 3 on, add [k] to the
    launch count as long as the count stays below the 64-bit limit. *)
Lemma launch_all_verbose (streams : list (Stream P)) :
  VLOG_IS_ON P 3 = true ->
  forall (this : OwnedGpuGraphExec) (p : Process (World P)),
    0 <= num_launches_ this ->
    num_launches_ this + Z.of_nat (List.length streams) <= U64.max ->
    exists sts this' p',
      launch_all P this streams p = Done (sts, this') p' /\
      num_launches_ this' = num_launches_ this + Z.of_nat (List.length streams) /\
      num_updates_ this' = num_updates_ this /\
      id_ this' = id_ this /\ exec_ptr this' = exec_ptr this.
Proof.
  intros Hv. induction streams as [|s rest IH]; intros this p H0 Hmax.
  - exists [], this, p. simpl. repeat split; try reflexivity. lia.
  - cbn [launch_all List.length] in *.
    destruct (Launch_verbose this s p Hv) as (st & p1 & E).
    assert (Hstep : U64.add (num_launches_ this) 1 = num_launches_ this + 1)
      by (apply add_one_exact; lia).
    destruct (IH (set_num_launches_ (U64.add (num_launches_ this) 1) this) p1)
      as (sts & this' & p' & E' & Hn & Hu & Hi & He).
    { simpl. lia. }
    { simpl. lia. }
    exists (st :: sts), this', p'.
    unfold bind at 1. rewrite E. unfold bind at 1. rewrite E'.
    simpl in *. repeat split; try assumption; try reflexivity. lia.
Qed.

End ObjectCounters.

Lemma Update_quiet (P : Platform) (this : OwnedGpuGraphExec)
  (graph : OwnedGpuGraph) (p : Process (World P)) :
  VLOG_IS_ON P 3 = false ->
  exists st p',
    Update P this graph p = Done (st, set_num_launches_ 0 this) p'.
Proof.
  intros Hv. rewrite Update_unfold. cbv zeta. rewrite Hv. eauto.
Qed.

Ltac u64 := unfold U64.max, U64.modulus in *; simpl in *; lia.

(** ** Claims about [Update] and [Launch] *)

(** C2 at the failing input.  What [Update] leaves of the object, in every
    configuration: the launch count is 0, and the update count is one
    further (in 64-bit unsigned arithmetic) when verbose logging at level 3
    is on and untouched when it is off, [num_updates_++] being an operand
    of the [VLOG(3)] statement.  At the failing input, verbose logging off
    (verbosity 0, the default) and a freshly constructed object, [Update]
    succeeds and the update count is still 0, not 1. *)
Theorem Update_quiet_keeps_update_count :
  (forall (P : Platform) (this : OwnedGpuGraphExec) (graph : OwnedGpuGraph)
          (p : Process (World P)),
      exists st p',
        Update P this graph p
        = Done (st,
                set_num_launches_ 0
                  (if VLOG_IS_ON P 3
                   then set_num_updates_ (U64.add (num_updates_ this) 1) this
                   else this))
               p') /\
  (exists st this' p',
      Update (Scripted.platform (Scripted.healthy 0))
             (mkOwnedGpuGraphExec 0 1) {| graph_ptr := 2 |} Scripted.start
      = Done (st, this') p' /\
      ok st = true /\
      num_launches_ this' = 0 /\
      num_updates_ this' = 0 /\
      num_updates_ this' <> num_updates_ (mkOwnedGpuGraphExec 0 1) + 1).
Proof.
  split.
  - intros P this graph p. rewrite Update_unfold. cbv zeta.
    eexists _, _. reflexivity.
  - eexists _, _, _. split; [reflexivity |].
    simpl. repeat split. lia.
Qed.

(** The side of C2 that holds.  Every call to [Update] returns, whether the
    driver call succeeds or fails, and leaves the launch count at 0
    whatever it was.
    When verbose logging at level 3 is on, the update count is one greater
    than before in 64-bit unsigned arithmetic, hence exactly one greater
    below the 64-bit maximum; when that logging is off the update count is
    unchanged. *)
Theorem Update_resets_launches_and_counts_updates :
  forall (P : Platform) (this : OwnedGpuGraphExec) (graph : OwnedGpuGraph)
         (p : Process (World P)),
  exists st this' p',
    Update P this graph p = Done (st, this') p' /\
    num_launches_ this' = 0 /\
    (VLOG_IS_ON P 3 = true ->
     num_updates_ this' = U64.add (num_updates_ this) 1) /\
    (VLOG_IS_ON P 3 = true -> 0 <= num_updates_ this < U64.max ->
     num_updates_ this' = num_updates_ this + 1) /\
    (VLOG_IS_ON P 3 = false -> num_updates_ this' = num_updates_ this).
Proof.
  intros P this graph p. rewrite Update_unfold. cbv zeta.
  eexists _, _, _. split; [reflexivity |].
  destruct (VLOG_IS_ON P 3); simpl; repeat split; intros;
    try discriminate; try reflexivity.
  now apply add_one_exact.
Qed.

Lemma Update_resets_launches_and_counts_updates_witness :
  exists st this' p',
    Update (Scripted.platform (Scripted.healthy 3))
           (set_num_launches_ 7 (mkOwnedGpuGraphExec 0 1))
           {| graph_ptr := 2 |} Scripted.start
    = Done (st, this') p' /\
    num_launches_ this' = 0 /\ num_updates_ this' = 1.
Proof.
  destruct (Update_resets_launches_and_counts_updates
              (Scripted.platform (Scripted.healthy 3))
              (set_num_launches_ 7 (mkOwnedGpuGraphExec 0 1))
              {| graph_ptr := 2 |} Scripted.start)
    as (st & this' & p' & E & Hl & _ & Hon & _).
  exists st, this', p'. split; [exact E |]. split; [exact Hl |].
  apply Hon; [reflexivity | u64].
Defined.

(** C3 at the failing input.  What [Launch] leaves of the object, in every
    configuration: the launch count is one further (in 64-bit unsigned
    arithmetic) when verbose logging at level 3 is on, and the object is
    untouched when it is off, [++num_launches_] being an operand of the
    [VLOG(3)] statement.  At the failing input, verbose logging off
    (verbosity 0, the default) and a freshly constructed object, the launch
    count is still 0 after one [Launch], not 1, and still 0 after three
    consecutive calls, not 3. *)
Theorem Launch_quiet_keeps_launch_count :
  (forall (P : Platform) (this : OwnedGpuGraphExec) (stream : Stream P)
          (p : Process (World P)),
      exists st p',
        Launch P this stream p
        = Done (st,
                if VLOG_IS_ON P 3
                then set_num_launches_ (U64.add (num_launches_ this) 1) this
                else this)
               p') /\
  (exists st this' p',
      Launch (Scripted.platform (Scripted.healthy 0))
             (mkOwnedGpuGraphExec 0 1) 7 Scripted.start
      = Done (st, this') p' /\
      ok st = true /\
      num_launches_ this' = 0 /\
      num_launches_ this' <> 1) /\
  (exists sts this' p',
      launch_all (Scripted.platform (Scripted.healthy 0))
                 (mkOwnedGpuGraphExec 0 1) [7; 7; 7] Scripted.start
      = Done (sts, this') p' /\
      num_launches_ this' = 0 /\
      num_launches_ this' <> 3).
Proof.
  split; [| split].
  - intros P this stream p. rewrite Launch_unfold. cbv zeta.
    eexists _, _. reflexivity.
  - eexists _, _, _. split; [reflexivity |].
    simpl. repeat split. lia.
  - eexists _, _, _. split; [reflexivity |].
    simpl. split; [reflexivity | lia].
Qed.

(** The side of C3 that holds.  When verbose logging at level 3 is on,
    each call to [Launch] increments the launch count by 1 in 64-bit unsigned
    arithmetic, hence by exactly 1 below the 64-bit maximum; on a freshly
    constructed object one [Launch] leaves the count at 1 and three
    consecutive calls leave it at 3. *)
Theorem Launch_increments_launch_count :
  forall (P : Platform),
    VLOG_IS_ON P 3 = true ->
    (forall this stream p,
        exists st this' p',
          Launch P this stream p = Done (st, this') p' /\
          num_launches_ this' = U64.add (num_launches_ this) 1 /\
          (0 <= num_launches_ this < U64.max ->
           num_launches_ this' = num_launches_ this + 1)) /\
    (forall id exec s1 p,
        exists sts this' p',
          launch_all P (mkOwnedGpuGraphExec id exec) [s1] p
          = Done (sts, this') p' /\
          num_launches_ this' = 1) /\
    (forall id exec s1 s2 s3 p,
        exists sts this' p',
          launch_all P (mkOwnedGpuGraphExec id exec) [s1; s2; s3] p
          = Done (sts, this') p' /\
          num_launches_ this' = 3).
Proof.
  intros P Hv. split; [| split].
  - intros this stream p.
    destruct (Launch_verbose P this stream p Hv) as (st & p' & E).
    eexists _, _, _. split; [exact E |]. simpl.
    split; [reflexivity | apply add_one_exact].
  - intros id exec s1 p.
    destruct (launch_all_verbose P [s1] Hv (mkOwnedGpuGraphExec id exec) p)
      as (sts & this' & p' & E & Hn & _); [simpl; lia | u64 |].
    exists sts, this', p'. split; [exact E | exact Hn].
  - intros id exec s1 s2 s3 p.
    destruct (launch_all_verbose P [s1; s2; s3] Hv
                (mkOwnedGpuGraphExec id exec) p)
      as (sts & this' & p' & E & Hn & _); [simpl; lia | u64 |].
    exists sts, this', p'. split; [exact E | exact Hn].
Qed.

Lemma Launch_increments_launch_count_witness :
  exists sts this' p',
    launch_all (Scripted.platform (Scripted.healthy 3))
               (mkOwnedGpuGraphExec 0 1) [7; 7; 7] Scripted.start
    = Done (sts, this') p' /\
    num_launches_ this' = 3.
Proof.
  apply (Launch_increments_launch_count
           (Scripted.platform (Scripted.healthy 3))).
  reflexivity.
Defined.

(** C5: [Update] returns an error exactly when the driver's
    executable-update call returns a status that is not OK or reports a
    result other than success.  The error is then an internal error whose
    message is "Failed to update gpu graph: " followed by the message of the
    driver's status; otherwise [Update] returns OK. *)
Theorem Update_error_iff_driver_update_failed :
  forall (P : Platform) (this : OwnedGpuGraphExec) (graph : OwnedGpuGraph)
         (p : Process (World P)) dst info w,
    GpuDriver_GraphExecUpdate P (exec_ptr this) (graph_ptr graph)
      (snd (NowNanos P (world p))) = ((dst, info), w) ->
    exists st this' p',
      Update P this graph p = Done (st, this') p' /\
      (ok st = false <-> (ok dst = false \/ result info <> kSuccess)) /\
      (ok st = false ->
       IsInternal st = true /\
       message st = ("Failed to update gpu graph: " ++ message dst)%string /\
       includes (message st) (message dst)) /\
      (ok st = true -> st = OkStatus).
Proof.
  intros P this graph p dst info w E.
  rewrite Update_unfold. cbv zeta. rewrite E. simpl.
  eexists _, _, _. split; [reflexivity |].
  destruct dst as [|c m]; simpl.
  - destruct info as [[ | | ]]; simpl; repeat split; intros;
      try discriminate; try reflexivity; try tauto;
      try (right; discriminate);
      try (now destruct H as [H | H]; [discriminate | elim H]);
      try exact (includes_suffix "Failed to update gpu graph: " "").
  - repeat split; intros; try discriminate; try reflexivity; try tauto.
    apply (includes_suffix "Failed to update gpu graph: " m).
Qed.

Lemma Update_error_iff_driver_update_failed_witness :
  exists st this' p',
    Update (Scripted.platform
              (Scripted.with_exec_update OkStatus kRequiresReinstantiation
                 (Scripted.healthy 0)))
           (mkOwnedGpuGraphExec 0 1) {| graph_ptr := 2 |} Scripted.start
    = Done (st, this') p' /\
    (ok st = false <->
       (ok OkStatus = false \/ kRequiresReinstantiation <> kSuccess)) /\
    (ok st = false ->
     IsInternal st = true /\
     message st = ("Failed to update gpu graph: " ++ message OkStatus)%string /\
     includes (message st) (message OkStatus)) /\
    (ok st = true -> st = OkStatus).
Proof.
  apply (Update_error_iff_driver_update_failed
           (Scripted.platform
              (Scripted.with_exec_update OkStatus kRequiresReinstantiation
                 (Scripted.healthy 0)))
           (mkOwnedGpuGraphExec 0 1) {| graph_ptr := 2 |} Scripted.start
           OkStatus {| result := kRequiresReinstantiation |}
           {| Scripted.capturing := []; Scripted.next_handle := 1;
              Scripted.clock := 1 |}).
  reflexivity.
Defined.

(** C9 at the failing input.  The object [Update] leaves is the same
    whether the driver's update call succeeds or fails (launch count 0;
    update count one further with verbose logging at level 3 on, untouched
    with it off), and an error it returns is an internal error.  At the
    failing input, verbose logging off (verbosity 0, the default) and a
    driver whose update call fails, [Update] returns an internal error with
    the launch count reset from 4 to 0 and the update count still 0: it has
    not been incremented. *)
Theorem failed_Update_quiet_keeps_update_count :
  (forall (P : Platform) (this : OwnedGpuGraphExec) (graph : OwnedGpuGraph)
          (p : Process (World P)),
      exists st p',
        Update P this graph p
        = Done (st,
                set_num_launches_ 0
                  (if VLOG_IS_ON P 3
                   then set_num_updates_ (U64.add (num_updates_ this) 1) this
                   else this))
               p' /\
        (ok st = false -> IsInternal st = true)) /\
  (exists st this' p',
      Update (Scripted.platform
                (Scripted.with_exec_update (Error kUnknown "topology changed")
                   kOtherFailure (Scripted.healthy 0)))
             (set_num_launches_ 4 (mkOwnedGpuGraphExec 0 1))
             {| graph_ptr := 2 |} Scripted.start
      = Done (st, this') p' /\
      ok st = false /\
      IsInternal st = true /\
      num_launches_ this' = 0 /\
      num_updates_ this' = 0 /\
      num_updates_ this'
      <> num_updates_ (set_num_launches_ 4 (mkOwnedGpuGraphExec 0 1)) + 1).
Proof.
  split.
  - intros P this graph p. rewrite Update_unfold. cbv zeta.
    eexists _, _. split; [reflexivity |].
    destruct (negb _ || negb _); [reflexivity | discriminate].
  - eexists _, _, _. split; [reflexivity |].
    split; [reflexivity |]. split; [reflexivity |].
    split; [reflexivity |]. split; [reflexivity |].
    simpl. lia.
Qed.

(** The side of C9 that holds.  [Update] is not atomic with respect to
    failure.  The
    launch count is reset to 0 and, when verbose logging at level 3 is on,
    the update count is incremented, whatever the driver's update call then
    answers: when [Update] returns an error (an internal error), the launch
    count has been reset and, with that logging on, the update count has
    been incremented (by exactly 1 below the 64-bit maximum), so that the
    object differs from what it was before the failed call. *)
Theorem failed_Update_has_changed_the_counters :
  forall (P : Platform) (this : OwnedGpuGraphExec) (graph : OwnedGpuGraph)
         (p : Process (World P)) st this' p',
    Update P this graph p = Done (st, this') p' ->
    ok st = false ->
    IsInternal st = true /\
    num_launches_ this' = 0 /\
    (VLOG_IS_ON P 3 = true ->
     num_updates_ this' = U64.add (num_updates_ this) 1 /\
     (0 <= num_updates_ this < U64.max ->
      num_updates_ this' = num_updates_ this + 1 /\ this' <> this)).
Proof.
  intros P this graph p st this' p' E Hst.
  rewrite Update_unfold in E. cbv zeta in E.
  injection E as Est Ethis _. subst this'.
  split.
  - destruct (negb _ || negb _) in Est; subst st;
      [reflexivity | discriminate].
  - destruct (VLOG_IS_ON P 3); simpl; split; try reflexivity;
      intros; try discriminate.
    split; [reflexivity |]. intros Hr.
    rewrite (add_one_exact _ Hr). split; [reflexivity |].
    intros Heq. apply (f_equal num_updates_) in Heq. simpl in Heq. lia.
Qed.

Lemma failed_Update_has_changed_the_counters_witness :
  exists st this' p',
    Update (Scripted.platform
              (Scripted.with_exec_update (Error kUnknown "topology changed")
                 kOtherFailure (Scripted.healthy 3)))
           (set_num_launches_ 4 (mkOwnedGpuGraphExec 0 1))
           {| graph_ptr := 2 |} Scripted.start
    = Done (st, this') p' /\
    ok st = false /\
    IsInternal st = true /\
    num_launches_ this' = 0 /\
    num_updates_ this' = 1.
Proof.
  eexists _, _, _. split; [reflexivity |]. split; [reflexivity |].
  destruct (failed_Update_has_changed_the_counters
              (Scripted.platform
                 (Scripted.with_exec_update (Error kUnknown "topology changed")
                    kOtherFailure (Scripted.healthy 3)))
              (set_num_launches_ 4 (mkOwnedGpuGraphExec 0 1))
              {| graph_ptr := 2 |} Scripted.start _ _ _ eq_refl eq_refl)
    as (Hi & Hl & Hon).
  split; [exact Hi |]. split; [exact Hl |].
  destruct (Hon eq_refl) as (_ & Hexact).
  apply Hexact. u64.
Defined.

(** ** Capture *)

Section Capture.
Variable P : Platform.

(** The part of [CaptureGpuGraph] that follows the capture function: end of
    capture first, then the status of the capture function. *)
Lemma CaptureGpuGraph_after_body (stream : Stream P)
  (capture : M (World P) Status) (p : Process (World P))
  st_b w1 captured p2 st_e g w3 :
  GpuDriver_StreamBeginCapture P (AsGpuStreamValue P stream) kThreadLocal
    (snd (NowNanos P (world p))) = (st_b, w1) ->
  ok st_b = true ->
  capture {| counters := counters p; world := w1 |} = Done captured p2 ->
  GpuDriver_StreamEndCapture P (AsGpuStreamValue P stream) (world p2)
  = ((st_e, g), w3) ->
  ok st_e && ok captured = false ->
  CaptureGpuGraph P stream capture p =
  Done (Failure
          (if ok st_e
           then errors.Internal
                  ["failed to capture gpu graph: "; message captured]
           else st_e))
       {| counters := counters p2; world := w3 |}.
Proof.
  intros Eb Hb Ec Ee Hfail.
  unfold CaptureGpuGraph, bind, call, ret.
  destruct (NowNanos P (world p)) as [t0 w0]. simpl in *.
  rewrite Eb. simpl. rewrite Hb. simpl. rewrite Ec, Ee. simpl.
  destruct (ok st_e); simpl in *; [| reflexivity].
  rewrite Hfail. reflexivity.
Qed.

(** When capture cannot begin, the capture function is not run. *)
Lemma CaptureGpuGraph_begin_failed (stream : Stream P)
  (capture : M (World P) Status) (p : Process (World P)) st_b w1 :
  GpuDriver_StreamBeginCapture P (AsGpuStreamValue P stream) kThreadLocal
    (snd (NowNanos P (world p))) = (st_b, w1) ->
  ok st_b = false ->
  CaptureGpuGraph P stream capture p =
  Done (Failure st_b) {| counters := counters p; world := w1 |}.
Proof.
  intros Eb Hb. unfold CaptureGpuGraph, bind, call, ret.
  destruct (NowNanos P (world p)) as [t0 w0]. simpl in *.
  rewrite Eb. simpl. rewrite Hb. reflexivity.
Qed.

End Capture.

(** C4, as stated, fails: when the capture function fails with
    "boom" and the driver then fails to end the capture, the call returns
    the driver's error, which is not an internal error and does not mention
    "boom". *)
Lemma CaptureGpuGraph_end_capture_error_wins :
  exists st p',
    CaptureGpuGraph
      (Scripted.platform
         (Scripted.with_end_capture (Error kUnknown "end capture failed")
            (Scripted.healthy 0)))
      7 (ret (Error kInvalidArgument "boom")) Scripted.start
    = Done (Failure st) p' /\
    IsInternal st = false /\
    ~ includes (message st) (message (Error kInvalidArgument "boom")).
Proof.
  eexists _, _. split; [lazy; reflexivity |]. split; [reflexivity |].
  intros H. apply includes_contains in H. discriminate H.
Qed.

(** C4 (amended): for every stream and every capture function that returns
    a failure status, [CaptureGpuGraph] calls the driver's end-capture
    before it looks at that status and returns right after it: it never
    returns a captured graph.  When end-capture succeeds, the stream is no
    longer in capture mode (for a driver whose end-capture does that) and
    the error returned is an internal error whose message includes the
    detail of the capture function's failure; when end-capture fails, its
    error is returned instead. *)
Theorem CaptureGpuGraph_failed_body :
  forall (P : Platform) (stream : Stream P) (capture : M (World P) Status)
         (p : Process (World P)) st_b w1 captured p2 st_e g w3,
    GpuDriver_StreamBeginCapture P (AsGpuStreamValue P stream) kThreadLocal
      (snd (NowNanos P (world p))) = (st_b, w1) ->
    ok st_b = true ->
    capture {| counters := counters p; world := w1 |} = Done captured p2 ->
    ok captured = false ->
    GpuDriver_StreamEndCapture P (AsGpuStreamValue P stream) (world p2)
    = ((st_e, g), w3) ->
    exists st,
      CaptureGpuGraph P stream capture p
      = Done (Failure st) {| counters := counters p2; world := w3 |} /\
      (ok st_e = true ->
       IsInternal st = true /\
       message st
       = ("failed to capture gpu graph: " ++ message captured)%string /\
       includes (message st) (message captured) /\
       (ends_capture P ->
        exists p4,
          IsStreamCapturing P stream {| counters := counters p2; world := w3 |}
          = Done (Value false) p4)) /\
      (ok st_e = false -> st = st_e).
Proof.
  intros P stream capture p st_b w1 captured p2 st_e g w3 Eb Hb Ec Hc Ee.
  eexists. split.
  - apply (CaptureGpuGraph_after_body P stream capture p _ _ _ _ _ _ _
             Eb Hb Ec Ee).
    rewrite Hc. apply andb_false_r.
  - destruct (ok st_e) eqn:He; split; intros; try discriminate;
      try reflexivity.
    split; [reflexivity |]. split; [reflexivity |].
    split; [apply (includes_suffix "failed to capture gpu graph: ") |].
    intros Hlaw. unfold IsStreamCapturing, call. simpl.
    pose proof (Hlaw _ _ _ _ _ Ee He) as Hq.
    destruct (GpuDriver_StreamIsCapturing P (AsGpuStreamValue P stream) w3)
      as [r w4]. simpl in Hq. subst r. eexists. reflexivity.
Qed.

Lemma Scripted_ends_capture (sc : Scripted.Script) :
  ends_capture (Scripted.platform sc).
Proof.
  intros s w w' st g E Hok. simpl in *.
  unfold Scripted.stream_end, Scripted.fresh_handle in E.
  destruct (ok (Scripted.end_capture sc)) eqn:Hsc.
  2:{ injection E as <- _ _. congruence. }
  injection E as _ _ <-. simpl. f_equal.
  induction (Scripted.capturing w) as [|x l IH]; simpl; [reflexivity |].
  destruct (x =? s) eqn:Ex; simpl; [exact IH |].
  rewrite Z.eqb_sym, Ex. exact IH.
Qed.

Lemma CaptureGpuGraph_failed_body_witness :
  exists st p3,
    CaptureGpuGraph (Scripted.platform (Scripted.healthy 0)) 7
      (ret (Error kInvalidArgument "boom")) Scripted.start
    = Done (Failure st) p3 /\
    IsInternal st = true /\
    message st = "failed to capture gpu graph: boom" /\
    includes (message st) "boom" /\
    exists p4,
      IsStreamCapturing (Scripted.platform (Scripted.healthy 0)) 7 p3
      = Done (Value false) p4.
Proof.
  destruct (CaptureGpuGraph_failed_body
              (Scripted.platform (Scripted.healthy 0)) 7
              (ret (Error kInvalidArgument "boom")) Scripted.start
              _ _ _ _ _ _ _
              eq_refl eq_refl eq_refl eq_refl eq_refl)
    as (st & E & Hok & _).
  destruct (Hok eq_refl) as (Hi & Hm & Hinc & Hcap).
  exists st. eexists. split; [exact E |].
  split; [exact Hi |]. split; [exact Hm |]. split; [exact Hinc |].
  apply Hcap. apply Scripted_ends_capture.
Defined.

(** C10: when the driver fails to end the capture, [CaptureGpuGraph]
    returns that error as it is.  The status of the capture function is not
    consulted: two capture functions that leave the process in the same
    state get the same answer whatever their statuses. *)
Theorem CaptureGpuGraph_end_capture_error_first :
  forall (P : Platform) (stream : Stream P) (capture : M (World P) Status)
         (p : Process (World P)) st_b w1 captured p2 st_e g w3,
    GpuDriver_StreamBeginCapture P (AsGpuStreamValue P stream) kThreadLocal
      (snd (NowNanos P (world p))) = (st_b, w1) ->
    ok st_b = true ->
    capture {| counters := counters p; world := w1 |} = Done captured p2 ->
    GpuDriver_StreamEndCapture P (AsGpuStreamValue P stream) (world p2)
    = ((st_e, g), w3) ->
    ok st_e = false ->
    CaptureGpuGraph P stream capture p
    = Done (Failure st_e) {| counters := counters p2; world := w3 |} /\
    (forall (capture' : M (World P) Status) captured',
        capture' {| counters := counters p; world := w1 |}
        = Done captured' p2 ->
        CaptureGpuGraph P stream capture' p
        = CaptureGpuGraph P stream capture p).
Proof.
  intros P stream capture p st_b w1 captured p2 st_e g w3 Eb Hb Ec Ee He.
  assert (Hgen : forall c cap,
             c {| counters := counters p; world := w1 |} = Done cap p2 ->
             CaptureGpuGraph P stream c p
             = Done (Failure st_e) {| counters := counters p2; world := w3 |}).
  { intros c cap Hc.
    rewrite (CaptureGpuGraph_after_body P stream c p _ _ _ _ _ _ _
               Eb Hb Hc Ee); rewrite He; reflexivity. }
  split.
  - apply (Hgen capture captured Ec).
  - intros capture' captured' Ec'.
    rewrite (Hgen capture' captured' Ec'), (Hgen capture captured Ec).
    reflexivity.
Qed.

Lemma CaptureGpuGraph_end_capture_error_first_witness :
  CaptureGpuGraph
    (Scripted.platform
       (Scripted.with_end_capture (Error kUnknown "end capture failed")
          (Scripted.healthy 0)))
    7 (ret (Error kInvalidArgument "boom")) Scripted.start
  = Done (Failure (Error kUnknown "end capture failed"))
         {| counters := zero_counters;
            world := {| Scripted.capturing := [7]; Scripted.next_handle := 1;
                        Scripted.clock := 1 |} |}.
Proof.
  apply (CaptureGpuGraph_end_capture_error_first
           (Scripted.platform
              (Scripted.with_end_capture (Error kUnknown "end capture failed")
                 (Scripted.healthy 0)))
           7 (ret (Error kInvalidArgument "boom")) Scripted.start
           OkStatus _ (Error kInvalidArgument "boom") _
           (Error kUnknown "end capture failed") nullptr _
           eq_refl eq_refl eq_refl eq_refl eq_refl).
Defined.

(** ** Instantiation and the allocation counters *)

Lemma NotifyGraphExecCreated_unfold {W} (p : Process W) :
  NotifyGraphExecCreated p =
  Done (allocated_gpu_graph_execs_ (counters p))
       {| counters := bump (counters p); world := world p |}.
Proof. reflexivity. Qed.

(** Between its two atomic steps [NotifyGraphExecCreated] has already
    counted the new object as alive and not yet as allocated. *)
Lemma NotifyGraphExecCreated_midway {W} (p : Process W) :
  exists old p1,
    alive_fetch_add 1 p = Done old p1 /\
    alive_gpu_graph_execs_ (counters p1)
    = U64.add (alive_gpu_graph_execs_ (counters p)) 1 /\
    allocated_gpu_graph_execs_ (counters p1)
    = allocated_gpu_graph_execs_ (counters p).
Proof. eexists _, _. split; [reflexivity |]. split; reflexivity. Qed.

Lemma InstantiateGpuGraph_unfold (P : Platform) (graph : OwnedGpuGraph)
  (p : Process (World P)) :
  let r := GpuDriver_GraphInstantiate P (graph_ptr graph) (default_flags P)
             (snd (NowNanos P (world p))) in
  let st := fst (fst r) in
  InstantiateGpuGraph P graph p =
  if ok st
  then Done (Value (mkOwnedGpuGraphExec
                      (allocated_gpu_graph_execs_ (counters p))
                      (snd (fst r))))
            {| counters := bump (counters p);
               world := snd (NowNanos P (snd r)) |}
  else Done (Failure st) {| counters := counters p; world := snd r |}.
Proof.
  cbv zeta. unfold InstantiateGpuGraph, bind, call, ret. simpl.
  destruct (NowNanos P (world p)) as [t0 w0]. simpl.
  destruct (GpuDriver_GraphInstantiate P (graph_ptr graph) (default_flags P) w0)
    as [[st exec] w1]. simpl.
  destruct (ok st); simpl; [| reflexivity].
  destruct (NowNanos P w1) as [t1 w2]. simpl.
  unfold VLOG. destruct (VLOG_IS_ON P 5); reflexivity.
Qed.

(** C7: [InstantiateGpuGraph] takes an identity from the allocation
    counters only on success.  When the driver's instantiate call fails,
    its error is returned to the caller and both counters are as they
    were; when it succeeds, the new object carries the value the
    [allocated] counter had and both counters have moved by one. *)
Theorem InstantiateGpuGraph_failure_leaves_counters :
  forall (P : Platform) (graph : OwnedGpuGraph) (p : Process (World P))
         st exec w,
    GpuDriver_GraphInstantiate P (graph_ptr graph) (default_flags P)
      (snd (NowNanos P (world p))) = ((st, exec), w) ->
    (ok st = false ->
     InstantiateGpuGraph P graph p
     = Done (Failure st) {| counters := counters p; world := w |}) /\
    (ok st = true ->
     exists p',
       InstantiateGpuGraph P graph p
       = Done (Value (mkOwnedGpuGraphExec
                        (allocated_gpu_graph_execs_ (counters p)) exec)) p' /\
       counters p' = bump (counters p)).
Proof.
  intros P graph p st exec w E.
  rewrite InstantiateGpuGraph_unfold. cbv zeta. rewrite E. simpl.
  split; intros ->; [reflexivity |].
  eexists. split; reflexivity.
Qed.

Lemma InstantiateGpuGraph_failure_leaves_counters_witness :
  InstantiateGpuGraph
    (Scripted.platform
       (Scripted.with_instantiate (Error kResourceExhausted "out of memory")
          (Scripted.healthy 5)))
    {| graph_ptr := 2 |} Scripted.start
  = Done (Failure (Error kResourceExhausted "out of memory"))
         {| counters := zero_counters;
            world := {| Scripted.capturing := []; Scripted.next_handle := 1;
                        Scripted.clock := 1 |} |}.
Proof.
  apply (InstantiateGpuGraph_failure_leaves_counters
           (Scripted.platform
              (Scripted.with_instantiate
                 (Error kResourceExhausted "out of memory")
                 (Scripted.healthy 5)))
           {| graph_ptr := 2 |} Scripted.start
           (Error kResourceExhausted "out of memory") nullptr _ eq_refl).
  reflexivity.
Defined.

(** ** Destruction *)

Section Destruction.
Variable P : Platform.

(** The destructor of an empty object does nothing at all: no counter
    moves and the driver is not called. *)
Lemma destroy_empty (this : OwnedGpuGraphExec) (p : Process (World P)) :
  nonempty this = false ->
  destroy_OwnedGpuGraphExec P this p = Done tt p.
Proof.
  intros He. unfold destroy_OwnedGpuGraphExec, bind, ret. rewrite He.
  reflexivity.
Qed.

(** The destructor of an object that holds a handle: the notification (if
    verbose logging at level 5 is on), then the driver's destroy call, whose
    failure aborts the process. *)
Lemma destroy_nonempty (this : OwnedGpuGraphExec) (p : Process (World P)) :
  nonempty this = true ->
  let r := GpuDriver_DestroyGraphExec P (exec_ptr this) (world p) in
  destroy_OwnedGpuGraphExec P this p =
  if ok (fst r)
  then Done tt {| counters := notified_destroyed (VLOG_IS_ON P 5) (counters p);
                  world := snd r |}
  else Fatal ("Failed to destroy executable gpu graph: " ++ message (fst r)).
Proof.
  intros He. cbv zeta.
  unfold destroy_OwnedGpuGraphExec, VLOG, DestroyGraphExec,
    NotifyGraphExecDestroyed, notified_destroyed.
  unfold bind, ret, call, CHECK, alive_fetch_sub.
  rewrite He.
  destruct (VLOG_IS_ON P 5); cbn [world counters];
    destruct (GpuDriver_DestroyGraphExec P (exec_ptr this) (world p))
      as [st w']; cbn [fst snd]; destruct (ok st); reflexivity.
Qed.

Lemma destroy_done (this : OwnedGpuGraphExec) (p p' : Process (World P)) :
  destroy_OwnedGpuGraphExec P this p = Done tt p' ->
  counters p'
  = notified_destroyed (nonempty this && VLOG_IS_ON P 5) (counters p).
Proof.
  destruct (nonempty this) eqn:He; intros E.
  - rewrite (destroy_nonempty this p He) in E. cbv zeta in E.
    destruct (ok _) in E; [| discriminate].
    injection E as <-. reflexivity.
  - rewrite (destroy_empty this p He) in E. injection E as <-. reflexivity.
Qed.

Lemma moved_from_is_empty (e : OwnedGpuGraphExec) :
  nonempty (fst (move_OwnedGpuGraphExec e)) = false.
Proof. reflexivity. Qed.

Lemma moved_to_is_source (e : OwnedGpuGraphExec) :
  snd (move_OwnedGpuGraphExec e) = e.
Proof. reflexivity. Qed.

End Destruction.

(** ** Lists of objects *)

Lemma nth_error_parts {A} (l : list A) (i : nat) (e : A) :
  nth_error l i = Some e ->
  exists l1 l2,
    l = l1 ++ e :: l2 /\
    remove_nth i l = l1 ++ l2 /\
    forall y, replace_nth i y l = l1 ++ y :: l2.
Proof.
  revert i. induction l as [|x l IH]; intros [|i] H; simpl in H;
    try discriminate.
  - injection H as ->. exists [], l. repeat split.
  - destruct (IH i H) as (l1 & l2 & -> & Hr & Hp).
    exists (x :: l1), l2. simpl. rewrite Hr. repeat split.
    intros y. now rewrite Hp.
Qed.

Lemma live_ids_app (l1 l2 : list OwnedGpuGraphExec) :
  live_ids (l1 ++ l2) = live_ids l1 ++ live_ids l2.
Proof. unfold live_ids. now rewrite filter_app, map_app. Qed.

Lemma live_ids_cons (e : OwnedGpuGraphExec) (l : list OwnedGpuGraphExec) :
  live_ids (e :: l) = (if nonempty e then [id_ e] else []) ++ live_ids l.
Proof. unfold live_ids. simpl. destruct (nonempty e); reflexivity. Qed.

Lemma live_ids_length (l : list OwnedGpuGraphExec) :
  List.length (live_ids l) = List.length (filter nonempty l).
Proof. unfold live_ids. apply length_map. Qed.

(** Removing an object removes its identity from the live ones when it
    held a handle, and nothing otherwise. *)
Lemma live_ids_remove (l : list OwnedGpuGraphExec) (i : nat)
  (e : OwnedGpuGraphExec) :
  nth_error l i = Some e ->
  Permutation (live_ids l)
    ((if nonempty e then [id_ e] else []) ++ live_ids (remove_nth i l)).
Proof.
  intros H. destruct (nth_error_parts l i e H) as (l1 & l2 & -> & -> & _).
  rewrite !live_ids_app, live_ids_cons.
  destruct (nonempty e); simpl; [| reflexivity].
  symmetry. apply Permutation_middle.
Qed.

(** A move keeps the live identities: the source gives its identity up and
    the new object takes it. *)
Lemma live_ids_move (l : list OwnedGpuGraphExec) (i : nat)
  (e : OwnedGpuGraphExec) :
  nth_error l i = Some e ->
  Permutation (live_ids l)
    (live_ids (replace_nth i (fst (move_OwnedGpuGraphExec e)) l
               ++ [snd (move_OwnedGpuGraphExec e)])).
Proof.
  intros H. destruct (nth_error_parts l i e H) as (l1 & l2 & -> & _ & ->).
  rewrite !live_ids_app, !live_ids_cons, moved_from_is_empty, moved_to_is_source.
  cbn [app live_ids map filter]. rewrite app_nil_r, <- app_assoc.
  apply Permutation_app_head.
  destruct (nonempty e); cbn [app]; [| now rewrite app_nil_r].
  apply (Permutation_cons_append (live_ids l2) (id_ e)).
Qed.

(** [Launch] and [Update] leave the identity and the handle alone. *)
Lemma live_ids_touch (l : list OwnedGpuGraphExec) (i : nat)
  (e e' : OwnedGpuGraphExec) :
  nth_error l i = Some e ->
  id_ e' = id_ e -> exec_ptr e' = exec_ptr e ->
  live_ids (replace_nth i e' l) = live_ids l.
Proof.
  intros H Hid Hptr.
  destruct (nth_error_parts l i e H) as (l1 & l2 & -> & _ & ->).
  rewrite !live_ids_app, !live_ids_cons. unfold nonempty.
  now rewrite Hid, Hptr.
Qed.

(** ** Sequences of operations *)

Section Runs.
Variable P : Platform.

Lemma destroy_OwnedGpuGraph_counters (g : OwnedGpuGraph)
  (p p' : Process (World P)) :
  destroy_OwnedGpuGraph P g p = Done tt p' -> counters p' = counters p.
Proof.
  unfold destroy_OwnedGpuGraph, DestroyGraph.
  unfold bind, call, CHECK, ret.
  destruct (is_null (graph_ptr g)); [intros E; now injection E as <- |].
  destruct (GpuDriver_DestroyGraph P (graph_ptr g) (world p)) as [st w'].
  destruct (ok st); [| discriminate]. intros E. now injection E as <-.
Qed.

(** A consuming call that returns has the result of the call itself, and
    the counters the call itself left. *)
Lemma consuming_done {A} (m : M (World P) A) (g : OwnedGpuGraph)
  (p p' : Process (World P)) (r : A) :
  consuming P m g p = Done r p' ->
  exists p1, m p = Done r p1 /\ counters p' = counters p1.
Proof.
  unfold consuming, bind, ret.
  destruct (m p) as [r1 p1|]; [| discriminate].
  destruct (destroy_OwnedGpuGraph P g p1) as [[] p2|] eqn:E; [| discriminate].
  intros H. injection H as <- <-.
  exists p1. split; [reflexivity |].
  apply (destroy_OwnedGpuGraph_counters g p1 p2 E).
Qed.

Lemma step_has_effect (op : Op P) (s s' : Sys (World P)) :
  step P op s = Some s' -> step_effect P s s'.
Proof.
  destruct op as [graph | i | i | i stream | i graph]; unfold step, lift.
  - destruct (consuming P (InstantiateGpuGraph P graph) graph (proc s))
      as [r p'|] eqn:Ec; [| discriminate].
    apply consuming_done in Ec. destruct Ec as (p1 & E1 & Hc).
    rewrite InstantiateGpuGraph_unfold in E1. cbv zeta in E1.
    destruct (GpuDriver_GraphInstantiate P (graph_ptr graph) (default_flags P)
                (snd (NowNanos P (world (proc s))))) as [[st exec] w1] eqn:E.
    cbn [fst snd] in E1.
    destruct (ok st) eqn:Hok; injection E1 as <- <-; intros H;
      injection H as <-; destruct p' as [c' w']; cbn [counters] in Hc;
      subst c'.
    + eapply InstantiateOk; [| reflexivity].
      intros Hlaw. exact (Hlaw _ _ _ _ _ _ E Hok).
    + eapply InstantiateFailed. reflexivity.
  - destruct (nth_error (objs s) i) as [e|] eqn:Hnth; [| discriminate].
    destruct (destroy_OwnedGpuGraphExec P e (proc s)) as [[] p'|] eqn:E;
      [| discriminate].
    intros H; injection H as <-.
    apply (Destroyed P s _ i e (world p') Hnth).
    rewrite <- (destroy_done P e _ _ E). now destruct p'.
  - destruct (nth_error (objs s) i) as [e|] eqn:Hnth; [| discriminate].
    intros H; injection H as <-.
    apply (Moved P s _ i e Hnth). reflexivity.
  - destruct (nth_error (objs s) i) as [e|] eqn:Hnth; [| discriminate].
    rewrite Launch_unfold. cbv zeta. intros H; injection H as <-.
    eapply (Touched P s _ i e _ _ Hnth); [| | reflexivity];
      cbn [snd]; destruct (VLOG_IS_ON P 3); reflexivity.
  - destruct (nth_error (objs s) i) as [e|] eqn:Hnth; [| discriminate].
    destruct (consuming P (Update P e graph) graph (proc s))
      as [r p'|] eqn:Ec; [| discriminate].
    apply consuming_done in Ec. destruct Ec as (p1 & E1 & Hc).
    rewrite Update_unfold in E1. cbv zeta in E1.
    injection E1 as <- <-. intros H; injection H as <-.
    destruct p' as [c' w']; cbn [counters] in Hc; subst c'.
    eapply (Touched P s _ i e _ _ Hnth); [| | reflexivity];
      cbn [snd]; destruct (VLOG_IS_ON P 3); reflexivity.
Qed.

Lemma run_app (ops1 ops2 : list (Op P)) (s : Sys (World P)) :
  run P (ops1 ++ ops2) s =
  match run P ops1 s with
  | Some s1 => run P ops2 s1
  | None => None
  end.
Proof.
  revert s. induction ops1 as [|op ops1 IH]; intros s; simpl;
    [reflexivity |].
  destruct (step P op s); [apply IH | reflexivity].
Qed.

(** A property kept by every operation holds after every run. *)
Lemma run_keeps (I : Sys (World P) -> Prop) :
  (forall s s', I s -> step_effect P s s' -> I s') ->
  forall ops s s', I s -> run P ops s = Some s' -> I s'.
Proof.
  intros Hstep ops. induction ops as [|op ops IH]; intros s s' Hs Hrun;
    simpl in Hrun.
  - injection Hrun as <-. exact Hs.
  - destruct (step P op s) as [s1|] eqn:E; [| discriminate].
    apply (IH s1 s'); [| exact Hrun].
    apply (Hstep s s1 Hs). now apply (step_has_effect op).
Qed.

(** The history of identities only grows. *)
Lemma step_effect_history (s s' : Sys (World P)) :
  step_effect P s s' ->
  (List.length (assigned s) <= List.length (assigned s'))%nat.
Proof.
  intros [exec w' _ -> | w' -> | i e w' _ -> | i e _ -> | i e e' w' _ _ _ ->];
    cbn [assigned]; try lia.
  rewrite length_app. simpl. lia.
Qed.

End Runs.

Lemma ids_of_seq_sorted (len start : nat) :
  StronglySorted Z.lt (map Z.of_nat (seq start len)).
Proof.
  revert start. induction len as [|len IH]; intros start; simpl;
    constructor; [apply IH |].
  apply Forall_forall. intros z Hz.
  apply in_map_iff in Hz. destruct Hz as (k & <- & Hk).
  apply in_seq in Hk. lia.
Qed.

Lemma sorted_nodup (l : list Z) : StronglySorted Z.lt l -> NoDup l.
Proof.
  induction 1 as [|a l _ IH Hall]; constructor; [| exact IH].
  intros Hin. rewrite Forall_forall in Hall. specialize (Hall a Hin). lia.
Qed.

Lemma ids_of_seq_nodup (len : nat) : NoDup (map Z.of_nat (seq 0 len)).
Proof. apply sorted_nodup, ids_of_seq_sorted. Qed.

Lemma ids_of_seq_bound (len : nat) (z : Z) :
  In z (map Z.of_nat (seq 0 len)) -> 0 <= z < Z.of_nat len.
Proof.
  intros Hz. apply in_map_iff in Hz. destruct Hz as (k & <- & Hk).
  apply in_seq in Hk. lia.
Qed.

Lemma live_ids_in (l : list OwnedGpuGraphExec) (z : Z) :
  In z (live_ids l) -> exists o, In o l /\ id_ o = z.
Proof.
  unfold live_ids. intros H. apply in_map_iff in H.
  destruct H as (o & <- & Ho). apply filter_In in Ho. exists o. tauto.
Qed.

Lemma add_wrap_one (n : Z) : U64.add (U64.wrap n) 1 = U64.wrap (n + 1).
Proof. unfold U64.add, U64.wrap. apply Zplus_mod_idemp_l. Qed.

Lemma Forall_parts {A} (Q : A -> Prop) (l : list A) (i : nat) (e : A) :
  nth_error l i = Some e ->
  Forall Q l ->
  Q e /\ Forall Q (remove_nth i l) /\
  forall y, Q y -> Forall Q (replace_nth i y l).
Proof.
  intros H Hall. destruct (nth_error_parts l i e H) as (l1 & l2 & -> & -> & Hr).
  apply Forall_app in Hall. destruct Hall as [H1 H2].
  inversion H2 as [|? ? He H2']; subst.
  split; [exact He |]. split.
  - apply Forall_app. split; assumption.
  - intros y Hy. rewrite Hr. apply Forall_app. split; [assumption |].
    constructor; assumption.
Qed.

Lemma notified_destroyed_allocated (b : bool) (c : Counters) :
  allocated_gpu_graph_execs_ (notified_destroyed b c)
  = allocated_gpu_graph_execs_ c.
Proof. destruct b; reflexivity. Qed.

Section Identities.
Variable P : Platform.

(** Every operation keeps [identities_invariant]. *)
Lemma step_keeps_identities (s s' : Sys (World P)) :
  identities_invariant s -> step_effect P s s' -> identities_invariant s'.
Proof.
  intros (Halloc & Hin & Hsmall) Hstep. unfold identities_invariant.
  destruct Hstep
    as [exec w' _ -> | w' -> | i e w' Hnth -> | i e Hnth ->
       | i e e' w' Hnth Hid Hptr ->];
    cbn [proc counters objs assigned].
  - (* a successful instantiation *)
    set (len := List.length (assigned s)) in *.
    assert (Hlen : List.length
                     (assigned s
                      ++ [allocated_gpu_graph_execs_ (counters (proc s))])
                   = S len)
      by (rewrite length_app; simpl; lia).
    rewrite Hlen. split; [| split].
    + cbn [bump allocated_gpu_graph_execs_]. rewrite Halloc, add_wrap_one.
      f_equal. lia.
    + apply Forall_app. split.
      * eapply Forall_impl; [| exact Hin]. intros o Ho.
        apply in_or_app. now left.
      * constructor; [| constructor]. cbn [mkOwnedGpuGraphExec id_].
        apply in_or_app. right. now left.
    + intros Hbound.
      destruct Hsmall as [Hseq Hnd]; [lia |].
      assert (Hfresh : allocated_gpu_graph_execs_ (counters (proc s))
                       = Z.of_nat len).
      { rewrite Halloc. apply wrap_small. lia. }
      rewrite Hfresh. split.
      * rewrite seq_S, map_app. cbn [map Nat.add]. now rewrite <- Hseq.
      * rewrite live_ids_app, live_ids_cons. cbn [live_ids filter map].
        rewrite app_nil_r.
        destruct (nonempty _); [| now rewrite app_nil_r].
        cbn [mkOwnedGpuGraphExec id_].
        apply (Permutation_NoDup
                 (Permutation_cons_append (live_ids (objs s)) (Z.of_nat len))).
        constructor; [| exact Hnd].
        intros Hmem. apply live_ids_in in Hmem.
        destruct Hmem as (o & Ho & Hido).
        rewrite Forall_forall in Hin. specialize (Hin o Ho).
        rewrite Hido, Hseq in Hin. apply ids_of_seq_bound in Hin. lia.
  - (* a failed instantiation *)
    repeat split; try assumption; now apply Hsmall.
  - (* a destruction *)
    rewrite notified_destroyed_allocated.
    destruct (Forall_parts _ _ _ _ Hnth Hin) as (_ & Hrem & _).
    split; [exact Halloc |]. split; [exact Hrem |].
    intros Hbound. destruct (Hsmall Hbound) as [Hseq Hnd].
    split; [exact Hseq |].
    apply (Permutation_NoDup (live_ids_remove _ _ _ Hnth)) in Hnd.
    now apply NoDup_app_remove_l in Hnd.
  - (* a move *)
    destruct (Forall_parts _ _ _ _ Hnth Hin) as (He & _ & Hrep).
    split; [exact Halloc |]. split.
    + apply Forall_app. split.
      * apply Hrep. exact He.
      * constructor; [exact He | constructor].
    + intros Hbound. destruct (Hsmall Hbound) as [Hseq Hnd].
      split; [exact Hseq |].
      apply (Permutation_NoDup (live_ids_move _ _ _ Hnth) Hnd).
  - (* a launch or an update *)
    destruct (Forall_parts _ _ _ _ Hnth Hin) as (He & _ & Hrep).
    split; [exact Halloc |]. split.
    + apply Hrep. now rewrite Hid.
    + intros Hbound. destruct (Hsmall Hbound) as [Hseq Hnd].
      split; [exact Hseq |].
      now rewrite (live_ids_touch _ _ _ _ Hnth Hid Hptr).
Qed.

Lemma boot_identities (w : World P) : identities_invariant (boot w).
Proof.
  unfold identities_invariant, boot. simpl.
  repeat split; try constructor.
Qed.

Lemma run_identities (ops : list (Op P)) (w : World P) (s : Sys (World P)) :
  run P ops (boot w) = Some s -> identities_invariant s.
Proof.
  apply (run_keeps P identities_invariant step_keeps_identities).
  apply boot_identities.
Qed.

End Identities.

Lemma wrap_succ_differs (n : Z) : U64.wrap n <> U64.wrap (n + 1).
Proof.
  unfold U64.wrap. intros H.
  assert (H1 : (n + 1 - n) mod U64.modulus = 0).
  { rewrite Zminus_mod, <- H, Z.sub_diag. reflexivity. }
  replace (n + 1 - n) with 1 in H1 by lia.
  vm_compute in H1. discriminate H1.
Qed.

(** C6: in every state a client reaches from start-up, the next successful
    instantiation takes as identity the value of the [allocated] counter,
    which is the number of instantiations so far (in 64-bit unsigned
    arithmetic), and the one after it takes a different identity.  As long
    as no more than [2^64] instantiations have succeeded, the identities
    handed out are 0, 1, 2, ... in the order of the instantiations: each is
    strictly greater than every earlier one, any two are distinct, and no
    two objects that hold a handle share an identity. *)
Theorem identities_are_distinct_and_increasing :
  forall (P : Platform) (ops : list (Op P)) (w : World P)
         (s : Sys (World P)),
    run P ops (boot w) = Some s ->
    (forall graph1 graph2 e1 e2 p1 p1' p2,
        InstantiateGpuGraph P graph1 (proc s) = Done (Value e1) p1 ->
        counters p1' = counters p1 ->
        InstantiateGpuGraph P graph2 p1' = Done (Value e2) p2 ->
        id_ e1 = allocated P s /\
        id_ e1 = U64.wrap (Z.of_nat (List.length (assigned s))) /\
        id_ e2 = U64.wrap (Z.of_nat (List.length (assigned s)) + 1) /\
        id_ e1 <> id_ e2) /\
    Forall (fun o => In (id_ o) (assigned s)) (objs s) /\
    (Z.of_nat (List.length (assigned s)) <= U64.modulus ->
     assigned s = map Z.of_nat (seq 0 (List.length (assigned s))) /\
     StronglySorted Z.lt (assigned s) /\
     NoDup (assigned s) /\
     NoDup (live_ids (objs s))).
Proof.
  intros P ops w s Hrun.
  destruct (run_identities P ops w s Hrun) as (Halloc & Hin & Hsmall).
  split; [| split; [exact Hin |]].
  - intros graph1 graph2 e1 e2 p1 p1' p2 E1 Hc E2.
    rewrite InstantiateGpuGraph_unfold in E1, E2. cbv zeta in E1, E2.
    destruct (ok _) in E1; [| discriminate].
    destruct (ok _) in E2; [| discriminate].
    injection E1 as <- <-. injection E2 as <- _.
    rewrite Hc. unfold allocated.
    cbn [mkOwnedGpuGraphExec id_ counters bump allocated_gpu_graph_execs_].
    rewrite Halloc, add_wrap_one.
    repeat split. apply wrap_succ_differs.
  - intros Hbound. destruct (Hsmall Hbound) as [Hseq Hnd].
    split; [exact Hseq |].
    split; [rewrite Hseq; apply ids_of_seq_sorted |].
    split; [rewrite Hseq; apply ids_of_seq_nodup | exact Hnd].
Qed.

Lemma identities_are_distinct_and_increasing_witness :
  run (Scripted.platform (Scripted.healthy 0))
      [OpInstantiate {| graph_ptr := 2 |};
       OpInstantiate {| graph_ptr := 2 |}]
      (boot Scripted.power_on)
  = Some (Scripted.sys 2 2 3 4
            [mkOwnedGpuGraphExec 0 1; mkOwnedGpuGraphExec 1 2] [0; 1]) /\
  StronglySorted Z.lt [0; 1] /\
  NoDup [0; 1] /\
  NoDup (live_ids [mkOwnedGpuGraphExec 0 1; mkOwnedGpuGraphExec 1 2]).
Proof.
  assert (Hrun : run (Scripted.platform (Scripted.healthy 0))
                   [OpInstantiate {| graph_ptr := 2 |};
                    OpInstantiate {| graph_ptr := 2 |}]
                   (boot Scripted.power_on)
                 = Some (Scripted.sys 2 2 3 4
                           [mkOwnedGpuGraphExec 0 1; mkOwnedGpuGraphExec 1 2]
                           [0; 1]))
    by (vm_compute; reflexivity).
  split; [exact Hrun |].
  destruct (identities_are_distinct_and_increasing
              (Scripted.platform (Scripted.healthy 0)) _ _ _ Hrun)
    as (_ & _ & Hglobal).
  destruct Hglobal as (_ & Hsorted & Hnd & Hlive).
  - vm_compute. intros H. discriminate H.
  - split; [exact Hsorted |]. split; [exact Hnd | exact Hlive].
Defined.

(** The bound of C6 is the range of [size_t]: once the [allocated] counter
    has reached [2^64 - 1], the next identity is [2^64 - 1] and the one
    after it is 0 again. *)
Lemma identity_wraps_at_limit :
  forall (P : Platform) (graph1 graph2 : OwnedGpuGraph)
         (p p1 p2 : Process (World P)) (e1 e2 : OwnedGpuGraphExec),
    allocated_gpu_graph_execs_ (counters p) = U64.max ->
    InstantiateGpuGraph P graph1 p = Done (Value e1) p1 ->
    InstantiateGpuGraph P graph2 p1 = Done (Value e2) p2 ->
    id_ e1 = U64.max /\ id_ e2 = 0.
Proof.
  intros P graph1 graph2 p p1 p2 e1 e2 Hmax E1 E2.
  rewrite InstantiateGpuGraph_unfold in E1, E2. cbv zeta in E1, E2.
  destruct (ok _) in E1; [| discriminate].
  destruct (ok _) in E2; [| discriminate].
  injection E1 as <- <-. injection E2 as <- _.
  cbn [mkOwnedGpuGraphExec id_ counters bump allocated_gpu_graph_execs_].
  rewrite Hmax. split; reflexivity.
Qed.

(** ** The [alive] counter *)

(** C1 at the failing input: with verbose logging off (verbosity 0, the
    default), one instantiation followed by the destruction of the object
    leaves no object behind, and yet the [alive] counter still reads 1;
    [allocated] reads 1 as it should. *)
Theorem alive_not_decremented_when_quiet :
  run (Scripted.platform (Scripted.healthy 0))
      [OpInstantiate {| graph_ptr := 2 |}; OpDestroy 0%nat]
      (boot Scripted.power_on)
  = Some (Scripted.sys 1 1 2 2 [] [0])
  /\ alive (Scripted.platform (Scripted.healthy 0))
           (Scripted.sys 1 1 2 2 [] [0]) = 1
  /\ live (Scripted.platform (Scripted.healthy 0))
          (Scripted.sys 1 1 2 2 [] [0]) = [].
Proof. split; [vm_compute; reflexivity |]. split; reflexivity. Qed.

(** The same run with verbose logging at level 5 on: [alive] is back at 0. *)
Lemma alive_decremented_when_verbose :
  run (Scripted.platform (Scripted.healthy 5))
      [OpInstantiate {| graph_ptr := 2 |}; OpDestroy 0%nat]
      (boot Scripted.power_on)
  = Some (Scripted.sys 1 0 2 2 [] [0]).
Proof. vm_compute. reflexivity. Qed.

Section Alive.
Variable P : Platform.
Hypothesis verbose : VLOG_IS_ON P 5 = true.
Hypothesis handles : instantiate_gives_handle P.

Lemma sub_wrap_succ (k : Z) : U64.sub (U64.wrap (1 + k)) 1 = U64.wrap k.
Proof.
  unfold U64.sub, U64.wrap. rewrite Zminus_mod_idemp_l. f_equal. lia.
Qed.

(** With the notification running, every operation keeps [alive] equal to
    the number of objects that hold a handle. *)
Lemma step_keeps_alive (s s' : Sys (World P)) :
  alive_invariant s -> step_effect P s s' -> alive_invariant s'.
Proof.
  unfold alive_invariant. intros Halive Hstep.
  destruct Hstep
    as [exec w' Hnn -> | w' -> | i e w' Hnth -> | i e Hnth ->
       | i e e' w' Hnth Hid Hptr ->];
    cbn [proc counters objs].
  - cbn [bump alive_gpu_graph_execs_]. rewrite Halive, add_wrap_one.
    rewrite live_ids_app, length_app, live_ids_cons.
    unfold nonempty at 1. cbn [mkOwnedGpuGraphExec exec_ptr].
    rewrite (Hnn handles). cbn. f_equal. lia.
  - exact Halive.
  - rewrite verbose, andb_true_r.
    pose proof (Permutation_length (live_ids_remove _ _ _ Hnth)) as Hlen.
    rewrite length_app in Hlen.
    destruct (nonempty e); cbn [notified_destroyed] in *.
    + cbn [alive_gpu_graph_execs_]. rewrite Halive, Hlen.
      cbn [List.length]. rewrite Nat2Z.inj_add. apply sub_wrap_succ.
    + rewrite Halive, Hlen. reflexivity.
  - rewrite Halive.
    now rewrite (Permutation_length (live_ids_move _ _ _ Hnth)).
  - now rewrite (live_ids_touch _ _ _ _ Hnth Hid Hptr).
Qed.

(** X8.  What C1 asks for does hold when the notification runs: [alive] is the
    number of objects that hold a handle, [allocated] the number of
    successful instantiations, and [0 <= alive <= allocated]. *)
Lemma counters_track_objects (ops : list (Op P)) (w : World P)
  (s : Sys (World P)) :
  run P ops (boot w) = Some s ->
  Z.of_nat (List.length (assigned s)) < U64.modulus ->
  alive P s = Z.of_nat (List.length (live P s)) /\
  allocated P s = Z.of_nat (List.length (assigned s)) /\
  0 <= alive P s <= allocated P s.
Proof.
  intros Hrun Hbound.
  destruct (run_identities P ops w s Hrun) as (Halloc & Hin & Hsmall).
  destruct Hsmall as [Hseq Hnd]; [lia |].
  assert (Halive : alive_invariant s).
  { apply (run_keeps P alive_invariant step_keeps_alive ops (boot w) s);
      [reflexivity | exact Hrun]. }
  assert (Hle : (List.length (live_ids (objs s))
                 <= List.length (assigned s))%nat).
  { apply NoDup_incl_length; [exact Hnd |].
    intros z Hz. apply live_ids_in in Hz. destruct Hz as (o & Ho & <-).
    rewrite Forall_forall in Hin. now apply Hin. }
  unfold alive, allocated, live. rewrite <- live_ids_length.
  rewrite Halive, Halloc, !wrap_small by lia. lia.
Qed.

End Alive.

(** The [allocated] counter never goes down (below the 64-bit limit):
    whatever a client does next, it reads at least what it read before. *)
Lemma allocated_monotone (P : Platform) (ops1 ops2 : list (Op P))
  (w : World P) (s1 s2 : Sys (World P)) :
  run P ops1 (boot w) = Some s1 ->
  run P ops2 s1 = Some s2 ->
  Z.of_nat (List.length (assigned s2)) < U64.modulus ->
  allocated P s1 <= allocated P s2.
Proof.
  intros H1 H2 Hbound.
  assert (H12 : run P (ops1 ++ ops2) (boot w) = Some s2)
    by (rewrite run_app, H1; exact H2).
  assert (Hgrow : (List.length (assigned s1) <= List.length (assigned s2))%nat).
  { apply (run_keeps P
             (fun s => (List.length (assigned s1) <= List.length (assigned s))%nat))
      with (ops := ops2) (s := s1); [| lia | exact H2].
    intros a b Ha Hab. apply (step_effect_history P) in Hab. lia. }
  destruct (run_identities P _ _ _ H1) as (Ha1 & _).
  destruct (run_identities P _ _ _ H12) as (Ha2 & _).
  unfold allocated. rewrite Ha1, Ha2, !wrap_small by lia. lia.
Qed.

(** ** Moved-from objects *)

(** Destroying a moved-from (empty) object changes nothing: the counters
    stay as they are and the driver is not called.  A destruction that
    changes the counters is the destruction of an object that holds a
    handle, and it lowers [alive] by one and leaves [allocated].  After a
    move, destroying the two objects of the pair, in either order, does
    what destroying the original object alone would have done, so at most
    one decrement occurs for the pair. *)
Lemma destroying_moved_from_changes_nothing :
  forall (P : Platform) (e : OwnedGpuGraphExec) (p : Process (World P)),
    (nonempty e = false -> destroy_OwnedGpuGraphExec P e p = Done tt p) /\
    (forall p',
        destroy_OwnedGpuGraphExec P e p = Done tt p' ->
        counters p' <> counters p ->
        nonempty e = true /\
        alive_gpu_graph_execs_ (counters p')
        = U64.sub (alive_gpu_graph_execs_ (counters p)) 1 /\
        allocated_gpu_graph_execs_ (counters p')
        = allocated_gpu_graph_execs_ (counters p)) /\
    (let src := fst (move_OwnedGpuGraphExec e) in
     let dst := snd (move_OwnedGpuGraphExec e) in
     nonempty src = false /\
     nonempty dst = nonempty e /\
     (_ <- destroy_OwnedGpuGraphExec P src ;;
      destroy_OwnedGpuGraphExec P dst) p
     = destroy_OwnedGpuGraphExec P e p /\
     (_ <- destroy_OwnedGpuGraphExec P dst ;;
      destroy_OwnedGpuGraphExec P src) p
     = destroy_OwnedGpuGraphExec P e p).
Proof.
  intros P e p. split; [apply destroy_empty |]. split.
  - intros p' E Hne. apply destroy_done in E.
    destruct (nonempty e && VLOG_IS_ON P 5) eqn:Hb;
      cbn [notified_destroyed] in E.
    + apply andb_prop in Hb. destruct Hb as [Hnonempty _].
      rewrite E. repeat split. exact Hnonempty.
    + now elim Hne.
  - cbv zeta. rewrite moved_to_is_source.
    split; [apply moved_from_is_empty |]. split; [reflexivity |].
    unfold bind. split.
    + now rewrite (destroy_empty P _ p (moved_from_is_empty e)).
    + destruct (destroy_OwnedGpuGraphExec P e p) as [[] p'|];
        [| reflexivity].
      apply destroy_empty, moved_from_is_empty.
Qed.

(** X11.  With the notification running (verbose logging at level 5 on), the
    pair left by a move gets exactly one decrement: destroying both
    objects lowers [alive] by one. *)
Lemma moved_pair_one_decrement_when_verbose :
  forall (P : Platform) (e : OwnedGpuGraphExec) (p p' : Process (World P)),
    VLOG_IS_ON P 5 = true ->
    nonempty e = true ->
    (_ <- destroy_OwnedGpuGraphExec P (fst (move_OwnedGpuGraphExec e)) ;;
     destroy_OwnedGpuGraphExec P (snd (move_OwnedGpuGraphExec e))) p
    = Done tt p' ->
    alive_gpu_graph_execs_ (counters p')
    = U64.sub (alive_gpu_graph_execs_ (counters p)) 1.
Proof.
  intros P e p p' Hv He E.
  destruct (destroying_moved_from_changes_nothing P e p)
    as (_ & _ & _ & _ & Hpair & _).
  cbv zeta in Hpair. rewrite Hpair in E. apply destroy_done in E.
  rewrite E, He, Hv. reflexivity.
Qed.

(** C8 at the failing input: with verbose logging off (verbosity 0, the
    default), an object is instantiated and moved, which leaves a
    moved-from object and the new owner; both are then destroyed.  [alive]
    reads 1 before the two destructions and 1 after them: no decrement
    occurred for the pair. *)
Theorem moved_pair_destroyed_without_decrement :
  run (Scripted.platform (Scripted.healthy 0))
      [OpInstantiate {| graph_ptr := 2 |}; OpMove 0%nat]
      (boot Scripted.power_on)
  = Some (Scripted.sys 1 1 2 2
            [fst (move_OwnedGpuGraphExec (mkOwnedGpuGraphExec 0 1));
             mkOwnedGpuGraphExec 0 1] [0]) /\
  run (Scripted.platform (Scripted.healthy 0))
      [OpDestroy 0%nat; OpDestroy 0%nat]
      (Scripted.sys 1 1 2 2
         [fst (move_OwnedGpuGraphExec (mkOwnedGpuGraphExec 0 1));
          mkOwnedGpuGraphExec 0 1] [0])
  = Some (Scripted.sys 1 1 2 2 [] [0]).
Proof. split; vm_compute; reflexivity. Qed.

(* ===================================================================== *)
(** * Further properties of gpu_graph.cc *)
(* ===================================================================== *)

(** ** Operations that leave the counters alone *)

Lemma quiet_ret {W A} (a : A) : quiet (W := W) (ret a).
Proof. intros p. exists a, p. split; reflexivity. Qed.

Lemma quiet_bind {W A B} (m : M W A) (k : A -> M W B) :
  quiet m -> (forall a, quiet (k a)) -> quiet (bind m k).
Proof.
  intros Hm Hk p. unfold bind.
  destruct (Hm p) as (a & p1 & -> & Hc1).
  destruct (Hk a p1) as (b & p2 & -> & Hc2).
  exists b, p2. split; [reflexivity | congruence].
Qed.

Lemma quiet_call {W A} (f : W -> A * W) : quiet (call f).
Proof.
  intros p. unfold call. destruct (f (world p)) as [a w].
  eexists _, _. split; reflexivity.
Qed.

Lemma quiet_peek {W A} (f : W -> A) : quiet (peek f).
Proof. intros p. eexists _, _. split; reflexivity. Qed.

Ltac quiet_steps :=
  repeat first
    [ apply quiet_ret
    | apply quiet_call
    | apply quiet_peek
    | apply quiet_bind; [| intros ?]
    | match goal with
      | |- quiet (match ?v with _ => _ end) => destruct v
      | |- quiet (if ?b then _ else _) => destruct b
      | |- quiet (let _ := _ in _) => cbv zeta
      end ].

Section Quiet.
Variable P : Platform.
Variable B : GraphBuilder P.

Lemma quiet_CreateGpuGraph : quiet (CreateGpuGraph P B).
Proof. unfold CreateGpuGraph. quiet_steps. Qed.

Lemma quiet_AddKernelNode graph deps threads blocks kernel args :
  quiet (AddKernelNode P B graph deps threads blocks kernel args).
Proof. unfold AddKernelNode. quiet_steps. Qed.

Lemma quiet_AddMemcpyD2DNode context graph deps dst src :
  quiet (AddMemcpyD2DNode P B context graph deps dst src).
Proof. unfold AddMemcpyD2DNode. quiet_steps. Qed.

(** [CaptureGpuGraph] is as quiet as its capture function. *)
Lemma quiet_CaptureGpuGraph stream (capture : M (World P) Status) :
  quiet capture -> quiet (CaptureGpuGraph P stream capture).
Proof. intros Hc. unfold CaptureGpuGraph. quiet_steps; exact Hc. Qed.

Lemma quiet_Launch this stream : quiet (Launch P this stream).
Proof. unfold Launch. quiet_steps. Qed.

Lemma quiet_Update this graph : quiet (Update P this graph).
Proof. unfold Update. quiet_steps. Qed.

Lemma quiet_IsStreamCapturing stream : quiet (IsStreamCapturing P stream).
Proof. unfold IsStreamCapturing. quiet_steps. Qed.

(** Destroying a graph is calm: it leaves the counters alone, and aborts
    only on the [CHECK] of [DestroyGraph]. *)
Lemma calm_destroy_OwnedGpuGraph (g : OwnedGpuGraph) :
  calm (destroy_OwnedGpuGraph P g).
Proof.
  intros p. unfold destroy_OwnedGpuGraph, DestroyGraph.
  unfold bind, call, CHECK, ret.
  destruct (is_null (graph_ptr g)); [reflexivity |].
  destruct (GpuDriver_DestroyGraph P (graph_ptr g) (world p)) as [st w'].
  destruct (ok st) eqn:Hok; [reflexivity |].
  exists st. split; [exact Hok | reflexivity].
Qed.

(** An empty graph wrapper is destroyed without a word to the driver, and
    a driver that destroys the graph lets the destructor return. *)
Lemma quiet_destroy_OwnedGpuGraph (g : OwnedGpuGraph) :
  is_null (graph_ptr g) = true \/
  (forall w, ok (fst (GpuDriver_DestroyGraph P (graph_ptr g) w)) = true) ->
  quiet (destroy_OwnedGpuGraph P g).
Proof.
  intros H p. unfold destroy_OwnedGpuGraph, DestroyGraph.
  unfold bind, call, CHECK, ret.
  destruct (is_null (graph_ptr g)) eqn:Hn.
  - exists tt, p. split; reflexivity.
  - destruct H as [H | H]; [discriminate |].
    specialize (H (world p)).
    destruct (GpuDriver_DestroyGraph P (graph_ptr g) (world p)) as [st w'].
    cbn [fst] in H. rewrite H. eexists _, _. split; reflexivity.
Qed.

Lemma quiet_calm {A} (m : M (World P) A) : quiet m -> calm m.
Proof. intros H p. now destruct (H p) as (a & p' & -> & Hc). Qed.

Lemma calm_bind {A C} (m : M (World P) A) (k : A -> M (World P) C) :
  calm m -> (forall a, calm (k a)) -> calm (bind m k).
Proof.
  intros Hm Hk p. unfold bind. specialize (Hm p).
  destruct (m p) as [a p1 | msg]; [| exact Hm].
  specialize (Hk a p1). destruct (k a p1) as [b p2 | msg]; [| exact Hk].
  congruence.
Qed.

Lemma quiet_perform (c : Call P B) : safe P B c -> quiet (perform P B c).
Proof.
  intros Hs.
  destruct c; unfold perform;
    (apply quiet_bind; [| intros ?; apply quiet_ret]).
  - apply quiet_CreateGpuGraph.
  - apply quiet_AddKernelNode.
  - apply quiet_AddMemcpyD2DNode.
  - apply quiet_CaptureGpuGraph, quiet_call.
  - apply quiet_Launch.
  - unfold consuming. apply quiet_bind; [apply quiet_Update | intros r].
    apply quiet_bind; [| intros ?; apply quiet_ret].
    apply quiet_destroy_OwnedGpuGraph, Hs.
  - apply quiet_IsStreamCapturing.
Qed.

Lemma calm_perform (c : Call P B) : calm (perform P B c).
Proof.
  destruct c; try (apply quiet_calm, quiet_perform; exact I).
  unfold perform, consuming.
  apply calm_bind; [| intros ?; apply quiet_calm, quiet_ret].
  apply calm_bind; [apply quiet_calm, quiet_Update | intros r].
  apply calm_bind; [| intros ?; apply quiet_calm, quiet_ret].
  apply calm_destroy_OwnedGpuGraph.
Qed.

(** A call that does not hand over a graph to destroy is safe. *)
Lemma keeps_its_graph_safe (c : Call P B) :
  gives_up_a_graph P B c = false -> safe P B c.
Proof.
  destruct c; cbn [gives_up_a_graph safe]; try (intros; exact I).
  intros H. left. now apply Bool.negb_false_iff in H.
Qed.

(** A sequence of safe calls returns one answer per call and leaves the
    counters alone. *)
Lemma quiet_perform_all (cs : list (Call P B)) :
  Forall (safe P B) cs ->
  forall p, exists answers p',
    perform_all P B cs p = Done answers p' /\
    List.length answers = List.length cs /\
    counters p' = counters p.
Proof.
  induction 1 as [| c rest Hc _ IH]; intros p.
  - exists [], p. repeat split.
  - cbn [perform_all]. unfold bind.
    destruct (quiet_perform c Hc p) as (a & p1 & -> & Hc1).
    destruct (IH p1) as (answers & p2 & -> & Hlen & Hc2).
    exists (a :: answers), p2. split; [reflexivity |].
    split; [simpl; now rewrite Hlen | congruence].
Qed.

(** A sequence of calls leaves the counters alone when it returns, with
    one answer per call; it aborts only in the destruction of a graph
    handed to [Update]. *)
Lemma calm_perform_all (cs : list (Call P B)) (p : Process (World P)) :
  match perform_all P B cs p with
  | Done answers p' =>
      List.length answers = List.length cs /\ counters p' = counters p
  | Fatal msg =>
      existsb (gives_up_a_graph P B) cs = true /\
      exists st, ok st = false /\
                 msg = ("Failed to destroy gpu graph: " ++ message st)%string
  end.
Proof.
  revert p. induction cs as [| c rest IH]; intros p.
  - split; reflexivity.
  - cbn [perform_all existsb]. unfold bind.
    pose proof (calm_perform c p) as Hc.
    destruct (perform P B c p) as [a p1 | msg] eqn:Ec.
    + specialize (IH p1).
      destruct (perform_all P B rest p1) as [answers p2 | msg]; unfold ret.
      * destruct IH as (Hlen & Hc2). split; [simpl; now rewrite Hlen | congruence].
      * destruct IH as (Hex & Hmsg). split; [| exact Hmsg].
        rewrite Hex. apply Bool.orb_true_r.
    + split; [| exact Hc].
      destruct (gives_up_a_graph P B c) eqn:Hg; [reflexivity |].
      destruct (quiet_perform c (keeps_its_graph_safe c Hg) p)
        as (a & p1 & E & _).
      rewrite E in Ec. discriminate.
Qed.

End Quiet.



(** ** Kernel nodes: what the driver is handed *)

Lemma narrow_narrow (v : Z) : U32.narrow (U32.narrow v) = U32.narrow v.
Proof. unfold U32.narrow. apply Z.mod_mod. discriminate. Qed.


(** ** Capture: the successful path, and who runs when *)

(** X2: when capture begins, the capture function succeeds and capture
    ends, [CaptureGpuGraph] returns the graph the driver handed over at
    end-capture and leaves the counters as the capture function left them.
    The debug dump cannot change that: whether the debug directory is set,
    whether a unique file name could be made, whether the dot file could
    be printed, the result is the same.  With no debug directory set,
    nothing is called after the second clock reading. *)
Theorem CaptureGpuGraph_success_whatever_the_debug_dump :
  forall (P : Platform) (stream : Stream P) (capture : M (World P) Status)
         (p : Process (World P)) st_b w1 captured p2 st_e g w3,
    GpuDriver_StreamBeginCapture P (AsGpuStreamValue P stream) kThreadLocal
      (snd (NowNanos P (world p))) = (st_b, w1) ->
    ok st_b = true ->
    capture {| counters := counters p; world := w1 |} = Done captured p2 ->
    ok captured = true ->
    GpuDriver_StreamEndCapture P (AsGpuStreamValue P stream) (world p2)
    = ((st_e, g), w3) ->
    ok st_e = true ->
    exists p',
      CaptureGpuGraph P stream capture p
      = Done (Value {| graph_ptr := g |}) p' /\
      counters p' = counters p2 /\
      (getenv P "XLA_GPU_GRAPH_DEBUG_DIRECTORY" (snd (NowNanos P w3)) = None ->
       world p' = snd (NowNanos P w3)).
Proof.
  intros P stream capture p st_b w1 captured p2 st_e g w3
         Eb Hb Ec Hc Ee He.
  unfold CaptureGpuGraph, bind, call, ret, peek.
  destruct (NowNanos P (world p)) as [t0 w0]. simpl in *.
  rewrite Eb. simpl. rewrite Hb. simpl.
  rewrite Ec, Ee. simpl. rewrite He, Hc. simpl.
  destruct (NowNanos P w3) as [t1 w4]. simpl.
  destruct (getenv P "XLA_GPU_GRAPH_DEBUG_DIRECTORY" w4) as [dir|]; simpl.
  - destruct (CreateUniqueFileName P (JoinPath P dir "/gpu-graph-") ".dot" w4)
      as [[unique file] w5]. simpl.
    destruct unique; simpl.
    + destruct (GpuDriver_GraphDebugDotPrint P g file w5) as [printed w6].
      simpl.
      eexists. split; [reflexivity |]. split; [reflexivity | discriminate].
    + eexists. split; [reflexivity |]. split; [reflexivity | discriminate].
  - eexists. split; [reflexivity |]. split; reflexivity.
Qed.

Lemma CaptureGpuGraph_success_whatever_the_debug_dump_witness :
  exists p',
    CaptureGpuGraph (Scripted.platform (Scripted.healthy 0)) 7
      (ret OkStatus) Scripted.start
    = Done (Value {| graph_ptr := 1 |}) p' /\
    counters p' = zero_counters.
Proof.
  destruct (CaptureGpuGraph_success_whatever_the_debug_dump
              (Scripted.platform (Scripted.healthy 0)) 7
              (ret OkStatus) Scripted.start
              OkStatus _ OkStatus _ OkStatus 1 _
              eq_refl eq_refl eq_refl eq_refl eq_refl eq_refl)
    as (p' & E & Hc & _).
  exists p'. split; [exact E | exact Hc].
Defined.

(** X3: a graph comes back from [CaptureGpuGraph] only when every step
    succeeded: capture began, the capture function ran and returned OK,
    and end-capture succeeded; the graph is the one end-capture gave, and
    the counters are as the capture function left them. *)
Theorem CaptureGpuGraph_value_means_all_succeeded :
  forall (P : Platform) (stream : Stream P) (capture : M (World P) Status)
         (p p' : Process (World P)) (graph : OwnedGpuGraph),
    CaptureGpuGraph P stream capture p = Done (Value graph) p' ->
    exists w1 p2 w3,
      GpuDriver_StreamBeginCapture P (AsGpuStreamValue P stream) kThreadLocal
        (snd (NowNanos P (world p))) = (OkStatus, w1) /\
      capture {| counters := counters p; world := w1 |} = Done OkStatus p2 /\
      GpuDriver_StreamEndCapture P (AsGpuStreamValue P stream) (world p2)
      = ((OkStatus, graph_ptr graph), w3) /\
      counters p' = counters p2.
Proof.
  intros P stream capture p p' graph.
  unfold CaptureGpuGraph, bind, call, ret, peek.
  destruct (NowNanos P (world p)) as [t0 w0]. simpl.
  destruct (GpuDriver_StreamBeginCapture P (AsGpuStreamValue P stream)
              kThreadLocal w0) as [st_b w1] eqn:Eb.
  simpl.
  destruct st_b as [|cb mb]; simpl; [| discriminate].
  destruct (capture {| counters := counters p; world := w1 |})
    as [captured p2|] eqn:Ec; [| discriminate].
  destruct (GpuDriver_StreamEndCapture P (AsGpuStreamValue P stream) (world p2))
    as [[st_e g] w3] eqn:Ee. simpl.
  destruct st_e as [|ce me]; simpl; [| discriminate].
  destruct captured as [|cc mc]; simpl; [| discriminate].
  destruct (NowNanos P w3) as [t1 w4]. simpl.
  intros H. exists w1, p2, w3.
  assert (Hres : graph = {| graph_ptr := g |} /\ counters p' = counters p2).
  { destruct (getenv P "XLA_GPU_GRAPH_DEBUG_DIRECTORY" w4) as [dir|];
      simpl in H.
    - destruct (CreateUniqueFileName P (JoinPath P dir "/gpu-graph-") ".dot" w4)
        as [[unique file] w5]. simpl in H.
      destruct unique; simpl in H.
      + destruct (GpuDriver_GraphDebugDotPrint P g file w5) as [printed w6].
        simpl in H. injection H as <- <-. split; reflexivity.
      + injection H as <- <-. split; reflexivity.
    - injection H as <- <-. split; reflexivity. }
  destruct Hres as [-> Hc].
  split; [first [reflexivity | exact Eb] |].
  split; [first [reflexivity | exact Ec] |].
  split; [first [reflexivity | exact Ee] | exact Hc].
Qed.

Lemma CaptureGpuGraph_value_means_all_succeeded_witness :
  exists w1 p2 w3,
    Scripted.stream_begin OkStatus 7 (snd (Scripted.tick Scripted.power_on))
    = (OkStatus, w1) /\
    ret OkStatus {| counters := zero_counters; world := w1 |}
    = Done OkStatus p2 /\
    Scripted.stream_end OkStatus 7 (world p2) = ((OkStatus, 1), w3) /\
    zero_counters = counters p2.
Proof.
  apply (CaptureGpuGraph_value_means_all_succeeded
           (Scripted.platform (Scripted.healthy 0)) 7
           (ret OkStatus) Scripted.start
           {| counters := zero_counters;
              world := {| Scripted.capturing := []; Scripted.next_handle := 2;
                          Scripted.clock := 2 |} |}
           {| graph_ptr := 1 |}).
  vm_compute. reflexivity.
Defined.

(** X4: when capture cannot begin, the capture function is not run at
    all: the driver's error is returned, the counters are untouched, and
    the answer is the same for every capture function, also for one that
    would abort the process. *)
Theorem CaptureGpuGraph_begin_failure_skips_the_body :
  forall (P : Platform) (stream : Stream P) (p : Process (World P)) st_b w1,
    GpuDriver_StreamBeginCapture P (AsGpuStreamValue P stream) kThreadLocal
      (snd (NowNanos P (world p))) = (st_b, w1) ->
    ok st_b = false ->
    forall capture : M (World P) Status,
      CaptureGpuGraph P stream capture p
      = Done (Failure st_b) {| counters := counters p; world := w1 |} /\
      CaptureGpuGraph P stream capture p
      = CaptureGpuGraph P stream (fun _ => Fatal "the capture function ran") p.
Proof.
  intros P stream p st_b w1 Eb Hb capture.
  rewrite !(CaptureGpuGraph_begin_failed P stream _ p st_b w1 Eb Hb).
  split; reflexivity.
Qed.

Lemma CaptureGpuGraph_begin_failure_skips_the_body_witness :
  CaptureGpuGraph
    (Scripted.platform
       {| Scripted.verbosity := 0;
          Scripted.begin_capture := Error kFailedPrecondition "stream busy";
          Scripted.end_capture := OkStatus;
          Scripted.instantiate := OkStatus;
          Scripted.exec_update := OkStatus;
          Scripted.exec_update_result := kSuccess;
          Scripted.launch := OkStatus;
          Scripted.destroy := OkStatus;
          Scripted.debug_directory := None |})
    7 (fun _ => Fatal "the capture function ran") Scripted.start
  = Done (Failure (Error kFailedPrecondition "stream busy"))
         {| counters := zero_counters;
            world := {| Scripted.capturing := []; Scripted.next_handle := 1;
                        Scripted.clock := 1 |} |}.
Proof.
  apply (CaptureGpuGraph_begin_failure_skips_the_body
           (Scripted.platform
              {| Scripted.verbosity := 0;
                 Scripted.begin_capture :=
                   Error kFailedPrecondition "stream busy";
                 Scripted.end_capture := OkStatus;
                 Scripted.instantiate := OkStatus;
                 Scripted.exec_update := OkStatus;
                 Scripted.exec_update_result := kSuccess;
                 Scripted.launch := OkStatus;
                 Scripted.destroy := OkStatus;
                 Scripted.debug_directory := None |})
           7 Scripted.start
           (Error kFailedPrecondition "stream busy") _ eq_refl eq_refl).
Defined.

(** ** Destruction: when the process aborts *)

(** X5: destroying an [OwnedGpuGraphExec] or an [OwnedGpuGraph] aborts the
    process exactly when the wrapper holds a handle and the driver fails to
    destroy it; the abort message is the fixed text followed by the
    driver's message.  An empty wrapper of either kind never reaches the
    driver: its destructor returns and leaves the process as it was.  In
    every other case the destructor returns too. *)
Theorem destruction_aborts_iff_driver_destroy_fails :
  forall (P : Platform) (e : OwnedGpuGraphExec) (g : OwnedGpuGraph)
         (p : Process (World P)),
    let re := GpuDriver_DestroyGraphExec P (exec_ptr e) (world p) in
    let rg := GpuDriver_DestroyGraph P (graph_ptr g) (world p) in
    ((exists msg, destroy_OwnedGpuGraphExec P e p = Fatal msg) <->
     (nonempty e = true /\ ok (fst re) = false)) /\
    (forall msg,
        destroy_OwnedGpuGraphExec P e p = Fatal msg ->
        msg = ("Failed to destroy executable gpu graph: "
               ++ message (fst re))%string) /\
    ((exists msg, destroy_OwnedGpuGraph P g p = Fatal msg) <->
     (is_null (graph_ptr g) = false /\ ok (fst rg) = false)) /\
    (forall msg,
        destroy_OwnedGpuGraph P g p = Fatal msg ->
        msg = ("Failed to destroy gpu graph: " ++ message (fst rg))%string) /\
    (is_null (graph_ptr g) = true -> destroy_OwnedGpuGraph P g p = Done tt p) /\
    (nonempty e = false -> destroy_OwnedGpuGraphExec P e p = Done tt p).
Proof.
  intros P e g p. cbv zeta.
  assert (He : forall msg,
             destroy_OwnedGpuGraphExec P e p = Fatal msg ->
             nonempty e = true /\
             ok (fst (GpuDriver_DestroyGraphExec P (exec_ptr e) (world p)))
             = false /\
             msg = ("Failed to destroy executable gpu graph: "
                    ++ message (fst (GpuDriver_DestroyGraphExec P (exec_ptr e)
                                       (world p))))%string).
  { intros msg E. destruct (nonempty e) eqn:Hn.
    - rewrite (destroy_nonempty P e p Hn) in E. cbv zeta in E.
      destruct (ok _) eqn:Hok; [discriminate |].
      injection E as <-. repeat split.
    - rewrite (destroy_empty P e p Hn) in E. discriminate. }
  assert (Hg : forall msg,
             destroy_OwnedGpuGraph P g p = Fatal msg ->
             is_null (graph_ptr g) = false /\
             ok (fst (GpuDriver_DestroyGraph P (graph_ptr g) (world p)))
             = false /\
             msg = ("Failed to destroy gpu graph: "
                    ++ message (fst (GpuDriver_DestroyGraph P (graph_ptr g)
                                       (world p))))%string).
  { intros msg. unfold destroy_OwnedGpuGraph, DestroyGraph.
    unfold bind, call, CHECK, ret.
    destruct (is_null (graph_ptr g)); [discriminate |].
    destruct (GpuDriver_DestroyGraph P (graph_ptr g) (world p)) as [st w'].
    cbn [fst]. destruct (ok st); [discriminate |].
    intros E. injection E as <-. repeat split. }
  split; [| split; [| split; [| split; [| split]]]].
  - split.
    + intros (msg & E). destruct (He msg E) as (Hn & Hok & _). now split.
    + intros (Hn & Hok). rewrite (destroy_nonempty P e p Hn). cbv zeta.
      rewrite Hok. eexists. reflexivity.
  - intros msg E. now destruct (He msg E) as (_ & _ & ->).
  - split.
    + intros (msg & E). destruct (Hg msg E) as (Hn & Hok & _). now split.
    + intros (Hn & Hok). unfold destroy_OwnedGpuGraph, DestroyGraph.
      unfold bind, call, CHECK, ret. rewrite Hn.
      destruct (GpuDriver_DestroyGraph P (graph_ptr g) (world p)) as [st w'].
      cbn [fst] in Hok. rewrite Hok. eexists. reflexivity.
  - intros msg E. now destruct (Hg msg E) as (_ & _ & ->).
  - intros Hn. unfold destroy_OwnedGpuGraph. now rewrite Hn.
  - intros Hn. now apply destroy_empty.
Qed.

Lemma destruction_aborts_iff_driver_destroy_fails_witness :
  destroy_OwnedGpuGraphExec
    (Scripted.platform
       {| Scripted.verbosity := 0;
          Scripted.begin_capture := OkStatus;
          Scripted.end_capture := OkStatus;
          Scripted.instantiate := OkStatus;
          Scripted.exec_update := OkStatus;
          Scripted.exec_update_result := kSuccess;
          Scripted.launch := OkStatus;
          Scripted.destroy := Error kInternal "device lost";
          Scripted.debug_directory := None |})
    (mkOwnedGpuGraphExec 0 1) Scripted.start
  = Fatal "Failed to destroy executable gpu graph: device lost".
Proof.
  destruct (destruction_aborts_iff_driver_destroy_fails
              (Scripted.platform
                 {| Scripted.verbosity := 0;
                    Scripted.begin_capture := OkStatus;
                    Scripted.end_capture := OkStatus;
                    Scripted.instantiate := OkStatus;
                    Scripted.exec_update := OkStatus;
                    Scripted.exec_update_result := kSuccess;
                    Scripted.launch := OkStatus;
                    Scripted.destroy := Error kInternal "device lost";
                    Scripted.debug_directory := None |})
              (mkOwnedGpuGraphExec 0 1) {| graph_ptr := 0 |} Scripted.start)
    as ((_ & Hfatal) & Hmsg & _).
  destruct Hfatal as (msg & E); [split; reflexivity |].
  rewrite E. f_equal. apply (Hmsg msg E).
Defined.

(** ** The counters *)

Lemma sub_add_one (a : Z) :
  0 <= a < U64.modulus -> U64.sub (U64.add a 1) 1 = a.
Proof.
  intros H. unfold U64.sub, U64.add, U64.wrap.
  rewrite Zminus_mod_idemp_l.
  replace (a + 1 - 1) with a by lia. now apply Z.mod_small.
Qed.

Lemma add_sub_one (a : Z) :
  0 <= a < U64.modulus -> U64.add (U64.sub a 1) 1 = a.
Proof.
  intros H. unfold U64.sub, U64.add, U64.wrap.
  rewrite Zplus_mod_idemp_l.
  replace (a - 1 + 1) with a by lia. now apply Z.mod_small.
Qed.

(** X6: [NotifyGraphExecCreated] and [NotifyGraphExecDestroyed] undo each
    other on the [alive] counter, in either order and also across the
    64-bit wrap: after a creation and a destruction [alive] is what it
    was, [allocated] is one further, the creation returned the old value
    of [allocated] and the destruction returned the [alive] count it
    left. *)
Theorem created_and_destroyed_cancel_on_alive :
  forall (W : Type) (p : Process W),
    0 <= alive_gpu_graph_execs_ (counters p) < U64.modulus ->
    (id <- NotifyGraphExecCreated ;;
     left <- NotifyGraphExecDestroyed ;;
     ret (id, left)) p
    = Done (allocated_gpu_graph_execs_ (counters p),
            alive_gpu_graph_execs_ (counters p))
           {| counters :=
                {| allocated_gpu_graph_execs_ :=
                     U64.add (allocated_gpu_graph_execs_ (counters p)) 1;
                   alive_gpu_graph_execs_ := alive_gpu_graph_execs_ (counters p) |};
              world := world p |} /\
    (left <- NotifyGraphExecDestroyed ;;
     id <- NotifyGraphExecCreated ;;
     ret (id, left)) p
    = Done (allocated_gpu_graph_execs_ (counters p),
            U64.sub (alive_gpu_graph_execs_ (counters p)) 1)
           {| counters :=
                {| allocated_gpu_graph_execs_ :=
                     U64.add (allocated_gpu_graph_execs_ (counters p)) 1;
                   alive_gpu_graph_execs_ := alive_gpu_graph_execs_ (counters p) |};
              world := world p |}.
Proof.
  intros W p Hr.
  unfold NotifyGraphExecCreated, NotifyGraphExecDestroyed, bind, ret,
    alive_fetch_add, alive_fetch_sub, allocated_fetch_add.
  cbn [counters world allocated_gpu_graph_execs_ alive_gpu_graph_execs_].
  rewrite (sub_add_one _ Hr), (add_sub_one _ Hr). split; reflexivity.
Qed.

Lemma created_and_destroyed_cancel_on_alive_witness :
  (id <- NotifyGraphExecCreated ;;
   left <- NotifyGraphExecDestroyed ;;
   ret (id, left)) Scripted.start
  = Done (0, 0)
         {| counters := {| allocated_gpu_graph_execs_ := 1;
                           alive_gpu_graph_execs_ := 0 |};
            world := Scripted.power_on |}.
Proof.
  apply (created_and_destroyed_cancel_on_alive _ Scripted.start).
  vm_compute. split; [intros H; discriminate H | reflexivity].
Defined.

(** X7: with verbose logging at level 5 off, the [alive] counter never
    goes down: after every run of a client from start-up it equals the
    [allocated] counter, that is, the number of successful instantiations
    so far (in 64-bit unsigned arithmetic), however many objects have been
    destroyed. *)
Theorem alive_equals_allocated_when_quiet :
  forall (P : Platform) (ops : list (Op P)) (w : World P)
         (s : Sys (World P)),
    VLOG_IS_ON P 5 = false ->
    run P ops (boot w) = Some s ->
    alive P s = allocated P s /\
    alive P s = U64.wrap (Z.of_nat (List.length (assigned s))).
Proof.
  intros P ops w s Hv Hrun.
  assert (Heq : alive P s = allocated P s).
  { apply (run_keeps P (fun s => alive P s = allocated P s))
      with (ops := ops) (s := boot w); [| reflexivity | exact Hrun].
    unfold alive, allocated. intros a b Hab Hstep.
    destruct Hstep
      as [exec w' _ -> | w' -> | i e w' _ -> | i e _ ->
         | i e e' w' _ _ _ ->];
      cbn [proc counters]; try exact Hab.
    - cbn [bump alive_gpu_graph_execs_ allocated_gpu_graph_execs_].
      now rewrite Hab.
    - rewrite Hv, andb_false_r. exact Hab. }
  split; [exact Heq |]. rewrite Heq.
  destruct (run_identities P ops w s Hrun) as (Halloc & _).
  exact Halloc.
Qed.

Lemma alive_equals_allocated_when_quiet_witness :
  alive (Scripted.platform (Scripted.healthy 0))
        (Scripted.sys 2 2 3 4 [mkOwnedGpuGraphExec 1 2] [0; 1])
  = allocated (Scripted.platform (Scripted.healthy 0))
              (Scripted.sys 2 2 3 4 [mkOwnedGpuGraphExec 1 2] [0; 1]).
Proof.
  assert (Hrun : run (Scripted.platform (Scripted.healthy 0))
                   [OpInstantiate {| graph_ptr := 2 |};
                    OpInstantiate {| graph_ptr := 2 |};
                    OpDestroy 0%nat]
                   (boot Scripted.power_on)
                 = Some (Scripted.sys 2 2 3 4 [mkOwnedGpuGraphExec 1 2] [0; 1]))
    by (vm_compute; reflexivity).
  apply (alive_equals_allocated_when_quiet
           (Scripted.platform (Scripted.healthy 0)) _ _ _ eq_refl Hrun).
Defined.

Lemma Sturdy_gives_handle (sc : Scripted.Script) :
  instantiate_gives_handle (Sturdy.platform sc).
Proof.
  intros g f w w' st exec E Hok. cbn in E. unfold Sturdy.instantiate in E.
  destruct (ok (Scripted.instantiate sc)) eqn:Hsc.
  - injection E as _ <- _. unfold is_null, nullptr.
    apply Z.eqb_neq. lia.
  - injection E as <- _ _. congruence.
Qed.

Lemma counters_track_objects_witness :
  alive (Sturdy.platform (Scripted.healthy 5))
        (Scripted.sys 2 1 3 4 [mkOwnedGpuGraphExec 1 3] [0; 1])
  = Z.of_nat
      (List.length
         (live (Sturdy.platform (Scripted.healthy 5))
               (Scripted.sys 2 1 3 4 [mkOwnedGpuGraphExec 1 3] [0; 1]))) /\
  allocated (Sturdy.platform (Scripted.healthy 5))
            (Scripted.sys 2 1 3 4 [mkOwnedGpuGraphExec 1 3] [0; 1]) = 2 /\
  0 <= alive (Sturdy.platform (Scripted.healthy 5))
             (Scripted.sys 2 1 3 4 [mkOwnedGpuGraphExec 1 3] [0; 1])
    <= allocated (Sturdy.platform (Scripted.healthy 5))
                 (Scripted.sys 2 1 3 4 [mkOwnedGpuGraphExec 1 3] [0; 1]).
Proof.
  assert (Hrun : run (Sturdy.platform (Scripted.healthy 5))
                   [OpInstantiate {| graph_ptr := 2 |};
                    OpInstantiate {| graph_ptr := 2 |};
                    OpDestroy 0%nat]
                   (boot Scripted.power_on)
                 = Some (Scripted.sys 2 1 3 4 [mkOwnedGpuGraphExec 1 3] [0; 1]))
    by (vm_compute; reflexivity).
  apply (counters_track_objects
           (Sturdy.platform (Scripted.healthy 5)) eq_refl
           (Sturdy_gives_handle (Scripted.healthy 5)) _ _ _ Hrun).
  vm_compute. reflexivity.
Defined.

(** X9: in every logging configuration the [allocated] counter is the
    number of successful instantiations since start-up (below the 64-bit
    limit), and it never goes down: whatever a client does next, it reads
    at least what it read before. *)
Theorem allocated_counts_successful_instantiations :
  forall (P : Platform) (ops1 ops2 : list (Op P)) (w : World P)
         (s1 s2 : Sys (World P)),
    run P ops1 (boot w) = Some s1 ->
    run P ops2 s1 = Some s2 ->
    Z.of_nat (List.length (assigned s2)) < U64.modulus ->
    allocated P s1 = Z.of_nat (List.length (assigned s1)) /\
    allocated P s2 = Z.of_nat (List.length (assigned s2)) /\
    allocated P s1 <= allocated P s2.
Proof.
  intros P ops1 ops2 w s1 s2 H1 H2 Hbound.
  pose proof (allocated_monotone P ops1 ops2 w s1 s2 H1 H2 Hbound) as Hmono.
  assert (H12 : run P (ops1 ++ ops2) (boot w) = Some s2)
    by (rewrite run_app, H1; exact H2).
  destruct (run_identities P _ _ _ H1) as (Ha1 & _).
  destruct (run_identities P _ _ _ H12) as (Ha2 & _).
  assert (Hs2 : allocated P s2 = Z.of_nat (List.length (assigned s2))).
  { unfold allocated. rewrite Ha2. apply wrap_small. lia. }
  assert (Hs1 : allocated P s1 = U64.wrap (Z.of_nat (List.length (assigned s1))))
    by exact Ha1.
  split; [| split; [exact Hs2 | exact Hmono]].
  rewrite Hs1. apply wrap_small.
  assert (Hgrow : (List.length (assigned s1) <= List.length (assigned s2))%nat).
  { apply (run_keeps P
             (fun s => (List.length (assigned s1) <= List.length (assigned s))%nat))
      with (ops := ops2) (s := s1); [| lia | exact H2].
    intros a b Ha Hab. apply (step_effect_history P) in Hab. lia. }
  lia.
Qed.

Lemma allocated_counts_successful_instantiations_witness :
  allocated (Scripted.platform (Scripted.healthy 0))
    (Scripted.sys 2 2 3 4
       [mkOwnedGpuGraphExec 0 1; mkOwnedGpuGraphExec 1 2] [0; 1]) = 2 /\
  allocated (Scripted.platform (Scripted.healthy 0))
    (Scripted.sys 3 3 4 6
       [mkOwnedGpuGraphExec 1 2; mkOwnedGpuGraphExec 2 3] [0; 1; 2]) = 3 /\
  allocated (Scripted.platform (Scripted.healthy 0))
    (Scripted.sys 2 2 3 4
       [mkOwnedGpuGraphExec 0 1; mkOwnedGpuGraphExec 1 2] [0; 1])
  <= allocated (Scripted.platform (Scripted.healthy 0))
       (Scripted.sys 3 3 4 6
          [mkOwnedGpuGraphExec 1 2; mkOwnedGpuGraphExec 2 3] [0; 1; 2]).
Proof.
  assert (Hrun1 : run (Scripted.platform (Scripted.healthy 0))
                    [OpInstantiate {| graph_ptr := 0 |};
                     OpInstantiate {| graph_ptr := 0 |}]
                    (boot Scripted.power_on)
                  = Some (Scripted.sys 2 2 3 4
                            [mkOwnedGpuGraphExec 0 1; mkOwnedGpuGraphExec 1 2]
                            [0; 1]))
    by (vm_compute; reflexivity).
  assert (Hrun2 : run (Scripted.platform (Scripted.healthy 0))
                    [OpDestroy 0%nat; OpInstantiate {| graph_ptr := 0 |}]
                    (Scripted.sys 2 2 3 4
                       [mkOwnedGpuGraphExec 0 1; mkOwnedGpuGraphExec 1 2]
                       [0; 1])
                  = Some (Scripted.sys 3 3 4 6
                            [mkOwnedGpuGraphExec 1 2; mkOwnedGpuGraphExec 2 3]
                            [0; 1; 2]))
    by (vm_compute; reflexivity).
  apply (allocated_counts_successful_instantiations
           (Scripted.platform (Scripted.healthy 0)) _ _ _ _ _ Hrun1 Hrun2).
  vm_compute. reflexivity.
Defined.

(** ** Launches since the last update *)



(** ** A move and the two destructors *)

Lemma moved_pair_one_decrement_when_verbose_witness :
  alive_gpu_graph_execs_
    {| allocated_gpu_graph_execs_ := 1; alive_gpu_graph_execs_ := 0 |}
  = U64.sub (alive_gpu_graph_execs_ (bump zero_counters)) 1.
Proof.
  apply (moved_pair_one_decrement_when_verbose
           (Scripted.platform (Scripted.healthy 5))
           (mkOwnedGpuGraphExec 0 1)
           {| counters := bump zero_counters; world := Scripted.power_on |}
           {| counters := {| allocated_gpu_graph_execs_ := 1;
                             alive_gpu_graph_execs_ := 0 |};
              world := Scripted.power_on |}).
  - reflexivity.
  - reflexivity.
  - vm_compute. reflexivity.
Defined.

(** X12: a move never makes the driver destroy a handle twice, nor lose it.
    The moved-from object is empty and its destructor does nothing;
    destroying the two objects of the pair, in either order, changes the
    process exactly as destroying the original object alone would have:
    the same driver calls on the same handle, the same counters, the same
    abort if the driver fails. *)
Theorem moved_pair_destroys_the_handle_once :
  forall (P : Platform) (e : OwnedGpuGraphExec) (p : Process (World P)),
    let src := fst (move_OwnedGpuGraphExec e) in
    let dst := snd (move_OwnedGpuGraphExec e) in
    destroy_OwnedGpuGraphExec P src p = Done tt p /\
    exec_ptr dst = exec_ptr e /\
    id_ dst = id_ e /\
    id_ src = id_ e /\
    (_ <- destroy_OwnedGpuGraphExec P src ;;
     destroy_OwnedGpuGraphExec P dst) p
    = destroy_OwnedGpuGraphExec P e p /\
    (_ <- destroy_OwnedGpuGraphExec P dst ;;
     destroy_OwnedGpuGraphExec P src) p
    = destroy_OwnedGpuGraphExec P e p.
Proof.
  intros P e p. cbv zeta.
  destruct (destroying_moved_from_changes_nothing P e p)
    as (_ & _ & Hsrc & _ & H1 & H2).
  cbv zeta in H1, H2.
  split; [apply destroy_empty, moved_from_is_empty |].
  split; [reflexivity |]. split; [reflexivity |]. split; [reflexivity |].
  split; [exact H1 | exact H2].
Qed.
